(** * Collaborative code editor: the browser client and the session relay

  A shallow embedding of the TypeScript client (types.ts, lib/api.ts,
  lib/executor.ts, hooks/useYjs.ts, App.tsx, the components and
  vite.config.ts) together with the relay contract the client talks to,
  followed by the properties proved of them.  Definitions come first,
  theorems afterwards. *)

From stdpp Require Import gmap strings list pretty sorting.

Local Open Scope string_scope.
Local Open Scope Z_scope.

Set Warnings "-register-all".

(** A JavaScript [number] occurs here only at integral values (HTTP status
  codes, close codes, page bounds, rounded milliseconds) and is a [Z]. *)

(** The line feed used by [logs.join('\n')], and the double quote of JSON
  texts. *)
Definition LF : string := String (Ascii.ascii_of_nat 10) EmptyString.
Definition DQ : string := String (Ascii.ascii_of_nat 34) EmptyString.

(** ** types.ts *)

Inductive ProgrammingLanguage : Set :=
| python | javascript | typescript | java | cpp
| go | rust | ruby | php | sql.

#[global] Instance ProgrammingLanguage_eq_dec : EqDecision ProgrammingLanguage.
Proof. solve_decision. Defined.

(** The string literal each member of the union type stands for. *)
Definition language_literal (l : ProgrammingLanguage) : string :=
match l with
| python => "python" | javascript => "javascript"
| typescript => "typescript" | java => "java" | cpp => "cpp"
| go => "go" | rust => "rust" | ruby => "ruby" | php => "php"
| sql => "sql"
end.

(** [DEFAULT_CODE]: the code template of each language. *)
Definition DEFAULT_CODE_python : string :=
  "# Python Code" +:+ LF +:+ "def hello(name: str) -> str:" +:+ LF +:+
  "    return f" +:+ DQ +:+ "Hello, {name}!" +:+ DQ +:+ LF +:+ LF +:+
  "print(hello(" +:+ DQ +:+ "World" +:+ DQ +:+ "))" +:+ LF.

Definition DEFAULT_CODE_javascript : string :=
  "// JavaScript Code" +:+ LF +:+ "function hello(name) {" +:+ LF +:+
  "    return `Hello, ${name}!`;" +:+ LF +:+ "}" +:+ LF +:+ LF +:+
  "console.log(hello(" +:+ DQ +:+ "World" +:+ DQ +:+ "));" +:+ LF.

Definition DEFAULT_CODE_typescript : string :=
  "// TypeScript Code" +:+ LF +:+
  "function hello(name: string): string {" +:+ LF +:+
  "    return `Hello, ${name}!`;" +:+ LF +:+ "}" +:+ LF +:+ LF +:+
  "console.log(hello(" +:+ DQ +:+ "World" +:+ DQ +:+ "));" +:+ LF.

Definition DEFAULT_CODE_java : string :=
  "// Java Code" +:+ LF +:+ "public class Main {" +:+ LF +:+
  "    public static void main(String[] args) {" +:+ LF +:+
  "        System.out.println(" +:+ DQ +:+ "Hello, World!" +:+ DQ +:+
  ");" +:+ LF +:+ "    }" +:+ LF +:+ "}" +:+ LF.

Definition DEFAULT_CODE_cpp : string :=
  "// C++ Code" +:+ LF +:+ "#include <iostream>" +:+ LF +:+ LF +:+
  "int main() {" +:+ LF +:+ "    std::cout << " +:+ DQ +:+
  "Hello, World!" +:+ DQ +:+ " << std::endl;" +:+ LF +:+ "    return 0;" +:+
  LF +:+ "}" +:+ LF.

Definition DEFAULT_CODE_go : string :=
  "// Go Code" +:+ LF +:+ "package main" +:+ LF +:+ LF +:+ "import " +:+
  DQ +:+ "fmt" +:+ DQ +:+ LF +:+ LF +:+ "func main() {" +:+ LF +:+
  "    fmt.Println(" +:+ DQ +:+ "Hello, World!" +:+ DQ +:+ ")" +:+ LF +:+
  "}" +:+ LF.

Definition DEFAULT_CODE_rust : string :=
  "// Rust Code" +:+ LF +:+ "fn main() {" +:+ LF +:+ "    println!(" +:+
  DQ +:+ "Hello, World!" +:+ DQ +:+ ");" +:+ LF +:+ "}" +:+ LF.

Definition DEFAULT_CODE_ruby : string :=
  "# Ruby Code" +:+ LF +:+ "def hello(name)" +:+ LF +:+ "  " +:+ DQ +:+
  "Hello, #{name}!" +:+ DQ +:+ LF +:+ "end" +:+ LF +:+ LF +:+
  "puts hello(" +:+ DQ +:+ "World" +:+ DQ +:+ ")" +:+ LF.

Definition DEFAULT_CODE_php : string :=
  "<?php" +:+ LF +:+ "// PHP Code" +:+ LF +:+ "function hello($name) {" +:+
  LF +:+ "    return " +:+ DQ +:+ "Hello, $name!" +:+ DQ +:+ ";" +:+ LF +:+
  "}" +:+ LF +:+ LF +:+ "echo hello(" +:+ DQ +:+ "World" +:+ DQ +:+ ");" +:+
  LF.

Definition DEFAULT_CODE_sql : string :=
  "-- SQL Code" +:+ LF +:+ "SELECT 'Hello, World!' AS greeting;" +:+ LF.

Definition DEFAULT_CODE (l : ProgrammingLanguage) : string :=
match l with
| python => DEFAULT_CODE_python
| javascript => DEFAULT_CODE_javascript
| typescript => DEFAULT_CODE_typescript
| java => DEFAULT_CODE_java
| cpp => DEFAULT_CODE_cpp
| go => DEFAULT_CODE_go
| rust => DEFAULT_CODE_rust
| ruby => DEFAULT_CODE_ruby
| php => DEFAULT_CODE_php
| sql => DEFAULT_CODE_sql
end.

Inductive SessionStatus : Set := active | idle | closed.

#[global] Instance SessionStatus_eq_dec : EqDecision SessionStatus.
Proof. solve_decision. Defined.

Definition status_literal (s : SessionStatus) : string :=
match s with active => "active" | idle => "idle" | closed => "closed" end.

(** [interface Session], fields in declaration order. *)
Module Session.
Record t : Type := mk {
  id : string;
  url : string;
  websocket_url : string;
  language : ProgrammingLanguage;
  title : option string;
  created_at : string;
  status : SessionStatus;
  participants_count : Z
}.

(** The property names the interface declares, in order. *)
Definition fields : list string :=
  ["id"; "url"; "websocket_url"; "language"; "title"; "created_at";
   "status"; "participants_count"].
End Session.

(** [interface CreateSessionRequest]: every field optional. *)
Module CreateSessionRequest.
Record t : Type := mk {
  language : option ProgrammingLanguage;
  initial_code : option string;
  title : option string
}.
End CreateSessionRequest.

(** [interface ExecuteResult]; a field marked [?] is [None] when the object
  literal leaves it out. *)
Module ExecuteResult.
Record t : Type := mk {
  success : bool;
  output : string;
  stderr : option string;
  execution_time_ms : option Z;
  error : option string;
  error_type : option string
}.
End ExecuteResult.

(** ** Promises

  An [async] function either fulfils with a value, rejects with a reason, or
  never settles (the call it awaits does not return). *)
Inductive Settled (A E : Type) : Type :=
| Fulfilled (v : A)
| Rejected (e : E).
Arguments Fulfilled {A E} v.
Arguments Rejected {A E} e.

(** ** lib/executor.ts *)
Module Executor.

Inductive ConsoleMethod : Set := c_log | c_error | c_warn | c_info.

(** One call [console.<method>(...args)]; [args] holds [String(arg)] of
    every argument, as [args.map(String)] computes it. *)
Record ConsoleCall : Type := {
  method : ConsoleMethod;
  args : list string
}.

(** What [throw] raised.  Reading a property of [null] or [undefined] is a
    [TypeError]; any other value answers a property read, with
    [undefined] where it has no such property.  [thrown_name] is [Some n]
    when [error.name] is the string [n]; [thrown_message] likewise. *)
Inductive Thrown : Type :=
  | thrown_nullish
  | thrown_value (thrown_name : option string) (thrown_message : option string).

Inductive Completion : Type :=
  | returned
  | threw (e : Thrown).

(** One run of [new Function('__console__', sandboxedCode)(sandboxConsole)]:
    the console calls made, in order, and how the run ended. *)
Record JsRun : Type := {
  calls : list ConsoleCall;
  completion : Completion
}.

(** How a Pyodide run ends: the loader or the stream redirection fails
    (outer [catch]), the user code raises (inner [catch]), or it
    finishes. *)
Inductive PyRun : Type :=
  | py_unavailable (message : string)
  | py_raised (message : string) (stderr_value : string)
  | py_finished (stdout_value stderr_value : string).

(** The browser as the executor sees it. *)
Record Browser : Type := {
  (** the sandboxed function applied to the console; [None] when the
      call does not return (the user code loops forever) *)
  run_javascript : string -> option JsRun;
  run_python : string -> option PyRun;
  (** [Math.round(performance.now() - startTime)] at the [return] *)
  elapsed_ms : Z
}.

(** The reason an executor promise rejects with. *)
Inductive Rejection : Type :=
  | TypeError (what : string).

Definition Outcome : Type := option (Settled ExecuteResult.t Rejection).

(** [args.map(String).join(' ')] with the prefix each console method
    puts in front. *)
Definition console_line (c : ConsoleCall) : string :=
  let text := String.concat " " (args c) in
  match method c with
  | c_log | c_info => text
  | c_error => "[ERROR] " +:+ text
  | c_warn => "[WARN] " +:+ text
  end.

(** The array [logs] after the given calls. *)
Definition logs_of (cs : list ConsoleCall) : list string :=
  map console_line cs.

Definition executePython (b : Browser) (code : string) : Outcome :=
  match run_python b code with
  | None => None
  | Some (py_unavailable message) =>
      Some (Fulfilled
        (ExecuteResult.mk false EmptyString None (Some (elapsed_ms b))
           (Some message) (Some "runtime_error")))
  | Some (py_raised message stderr_value) =>
      Some (Fulfilled
        (ExecuteResult.mk false EmptyString
           (Some (if decide (stderr_value = EmptyString) then message
                  else stderr_value))
           (Some (elapsed_ms b)) (Some message) (Some "runtime_error")))
  | Some (py_finished stdout_value stderr_value) =>
      Some (Fulfilled
        (ExecuteResult.mk true stdout_value (Some stderr_value)
           (Some (elapsed_ms b)) None None))
  end.

(** The executor promise settles inside its own constructor, so the race
    with the ten second timer is always won by it; the [catch] block
    reads [error.message] and [error.name]. *)
Definition executeJavaScript (b : Browser) (code : string) : Outcome :=
  match run_javascript b code with
  | None => None
  | Some r =>
      let logs := logs_of (calls r) in
      match completion r with
      | returned =>
          Some (Fulfilled
            (ExecuteResult.mk true (String.concat LF logs)
               (Some EmptyString) (Some (elapsed_ms b)) None None))
      | threw thrown_nullish =>
          Some (Rejected (TypeError "Cannot read properties of null"))
      | threw (thrown_value name message) =>
          Some (Fulfilled
            (ExecuteResult.mk false (String.concat LF logs) None
               (Some (elapsed_ms b)) message
               (Some (if decide (name = Some "SyntaxError")
                      then "syntax_error" else "runtime_error"))))
      end
  end.

(** The object literal of the [default:] branch of [executeCode]. *)
Definition unsupported (language : ProgrammingLanguage) : ExecuteResult.t :=
  ExecuteResult.mk false EmptyString None None
    (Some ("Language " +:+ DQ +:+ language_literal language +:+ DQ +:+
           " is not supported for browser execution. Use Python or JavaScript."))
    (Some "runtime_error").

Definition executeCode (b : Browser) (code : string)
    (language : ProgrammingLanguage) : Outcome :=
  match language with
  | python => executePython b code
  | javascript | typescript => executeJavaScript b code
  | _ => Some (Fulfilled (unsupported language))
  end.

Definition supportsExecution (language : ProgrammingLanguage) : bool :=
  bool_decide (language ∈ [python; javascript; typescript]).

End Executor.

(** ** JSON values, as [JSON.parse] returns them and [JSON.stringify] reads
    them.  The properties of an object are listed in own-property order,
    each key once. *)
Module Json.

Inductive t : Type :=
| JNull
| JBool (b : bool)
| JNum (n : Z)
| JStr (s : string)
| JArr (items : list t)
| JObj (props : list (string * t)).

(** [obj[key]] for an object's own property; [None] is [undefined]. *)
Fixpoint own_property (props : list (string * t)) (key : string) : option t :=
match props with
| [] => None
| (k, v) :: rest => if String.eqb k key then Some v else own_property rest key
end.

(** The result of reading [value.key]: a [TypeError] on [null], the own
    property of an object, [undefined] on every other JSON value (no string,
    number, boolean or array has a property of the names read here). *)
Inductive Read : Type :=
| read_type_error
| read_value (v : option t).

Definition get (value : t) (key : string) : Read :=
match value with
| JNull => read_type_error
| JObj props => read_value (own_property props key)
| _ => read_value None
end.

(** JavaScript truthiness of a value that may be [undefined]. *)
Definition truthy (v : option t) : bool :=
match v with
| None | Some JNull | Some (JBool false) => false
| Some (JNum n) => negb (n =? 0)
| Some (JStr s) => negb (bool_decide (s = EmptyString))
| Some _ => true
end.

(** [String(v)], which the [Error] constructor applies to its message. *)
Fixpoint to_string (v : t) : string :=
match v with
| JNull => "null"
| JBool true => "true"
| JBool false => "false"
| JNum n => pretty n
| JStr s => s
| JArr items =>
    String.concat ","
      (map (fun i => match i with JNull => EmptyString | _ => to_string i end)
           items)
| JObj _ => "[object Object]"
end.

Definition hex_digit (n : N) : Ascii.ascii :=
Ascii.ascii_of_N (if (n <? 10)%N then 48 + n else 87 + n)%N.

(** The escape [JSON.stringify] writes for one character of a string. *)
Definition escape_char (c : Ascii.ascii) : string :=
let n := Ascii.N_of_ascii c in
if (n =? 34)%N then "\" +:+ DQ
else if (n =? 92)%N then "\\"
else if (n =? 8)%N then "\b"
else if (n =? 9)%N then "\t"
else if (n =? 10)%N then "\n"
else if (n =? 12)%N then "\f"
else if (n =? 13)%N then "\r"
else if (n <? 32)%N then
  "\u00" +:+ String (hex_digit (n / 16)) (String (hex_digit (n mod 16)) EmptyString)
else String c EmptyString.

Fixpoint escape (s : string) : string :=
match s with
| EmptyString => EmptyString
| String c rest => escape_char c +:+ escape rest
end.

Definition quote (s : string) : string := DQ +:+ escape s +:+ DQ.

(** [JSON.stringify(v)]. *)
Fixpoint stringify (v : t) : string :=
match v with
| JNull => "null"
| JBool true => "true"
| JBool false => "false"
| JNum n => pretty n
| JStr s => quote s
| JArr items => "[" +:+ String.concat "," (map stringify items) +:+ "]"
| JObj props =>
    "{" +:+
    String.concat ","
      (map (fun kv => quote (fst kv) +:+ ":" +:+ stringify (snd kv)) props)
    +:+ "}"
end.

(** An object literal whose optional properties are left out when
    [undefined], as [JSON.stringify] leaves them out. *)
Definition object_of (fields : list (string * option t)) : t :=
JObj (omap (fun kv => pair (fst kv) <$> snd kv) fields).

End Json.

(** The members of the two union types, read back from their literals. *)
Definition language_of_literal (s : string) : option ProgrammingLanguage :=
list_find (fun l => language_literal l = s)
  [python; javascript; typescript; java; cpp; go; rust; ruby; php; sql]
≫= fun r => Some r.2.

Definition status_of_literal (s : string) : option SessionStatus :=
list_find (fun l => status_literal l = s) [active; idle; closed]
≫= fun r => Some r.2.

(** The JSON values that are a [Session]: an object with the declared
    properties at the declared types. *)
Module SessionJson.
Import Json.

Definition string_of (v : option Json.t) : option string :=
match v with Some (JStr s) => Some s | _ => None end.

Definition of_json (j : Json.t) : option Session.t :=
match j with
| JObj props =>
    id ← string_of (own_property props "id");
    url ← string_of (own_property props "url");
    websocket_url ← string_of (own_property props "websocket_url");
    language ← string_of (own_property props "language")
               ≫= language_of_literal;
    title ← match own_property props "title" with
            | Some (JStr s) => Some (Some s)
            | Some JNull => Some None
            | _ => None
            end;
    created_at ← string_of (own_property props "created_at");
    status ← string_of (own_property props "status") ≫= status_of_literal;
    participants_count ←
      match own_property props "participants_count" with
      | Some (JNum n) => Some n
      | _ => None
      end;
    Some (Session.mk id url websocket_url language title created_at status
            participants_count)
| _ => None
end.

End SessionJson.

(** ** lib/api.ts *)
Module Api.
Import Json.

(** [RequestInit], as far as the client fills it in. *)
Record RequestInit : Type := {
  method : option string;
  headers : option (list (string * string));
  body : option string
}.

Definition no_options : RequestInit :=
{| method := None; headers := None; body := None |}.

(** The body of a response: [response.json()] parses it or rejects. *)
Inductive Body : Type :=
| not_json
| parsed (j : Json.t).

Record Response : Type := {
  status : Z;
  body_of : Body
}.

(** [response.ok]: the status is in the range 200 to 299. *)
Definition ok (r : Response) : bool :=
bool_decide (200 <= status r <= 299).

(** What [await fetch(url, init)] yields: a response, whatever its status,
    or a rejection when the request could not be made at all. *)
Inductive Fetched : Type :=
| fetch_rejected (reason : string)
| responded (r : Response).

(** The environment of the client: the build-time variable and the
    network. *)
Record Env : Type := {
  VITE_API_URL : option string;
  fetch : string -> RequestInit -> Fetched
}.

(** [import.meta.env.VITE_API_URL || '/api']. *)
Definition API_BASE (e : Env) : string :=
match VITE_API_URL e with
| Some u => if decide (u = EmptyString) then "/api" else u
| None => "/api"
end.

(** What a promise of this module rejects with. *)
Inductive Failure : Type :=
| ApiError (status : Z) (message : string)
| TypeError (what : string)
| SyntaxError (what : string)
| FetchFailure (reason : string).

(** One call of [fetch]: the url and the init object. *)
Definition Call : Type := string * RequestInit.

(** A promise of this module: the calls of [fetch] made on its behalf and
    what it settles to. *)
Record Promise : Type := {
  fetched : list Call;
  settled : Settled Json.t Failure
}.

(** The second argument of [fetch]: the content type header, then the
    caller's options spread over it. *)
Definition init_of (options : RequestInit) : RequestInit :=
{| method := method options;
   headers :=
     match headers options with
     | Some h => Some h
     | None => Some [("Content-Type", "application/json")]
     end;
   body := body options |}.

(** The method [fetch] uses: GET unless the init names one. *)
Definition method_of (init : RequestInit) : string :=
default "GET" (method init).

Definition request (e : Env) (endpoint : string) (options : RequestInit)
  : Promise :=
let url := API_BASE e +:+ endpoint in
let init := init_of options in
{| fetched := [(url, init)];
   settled :=
     match fetch e url init with
     | fetch_rejected reason => Rejected (FetchFailure reason)
     | responded response =>
         if negb (ok response) then
           let error :=
             match body_of response with
             | parsed j => j
             | not_json => JObj [("detail", JStr "Unknown error")]
             end in
           match get error "detail" with
           | read_type_error =>
               Rejected (TypeError "Cannot read properties of null")
           | read_value detail =>
               Rejected
                 (ApiError (status response)
                    (match detail with
                     | Some d => if truthy detail then to_string d
                                 else "Request failed"
                     | None => "Request failed"
                     end))
           end
         else if decide (status response = 204) then Fulfilled JNull
         else
           match body_of response with
           | parsed j => Fulfilled j
           | not_json => Rejected (SyntaxError "Unexpected token")
           end
     end |}.


(** The argument type of [updateSession]:
    [{ language?: string; title?: string }]. *)
Record SessionUpdate : Type := {
  language : option string;
  title : option string
}.

Definition json_of_SessionUpdate (d : SessionUpdate) : Json.t :=
object_of [("language", JStr <$> language d); ("title", JStr <$> title d)].


Definition getSession (e : Env) (sessionId : string) : Promise :=
request e ("/sessions/" +:+ sessionId) no_options.

Definition updateSession (e : Env) (sessionId : string) (data : SessionUpdate)
  : Promise :=
request e ("/sessions/" +:+ sessionId)
  {| method := Some "PATCH";
     headers := None;
     body := Some (stringify (json_of_SessionUpdate data)) |}.

Definition deleteSession (e : Env) (sessionId : string) : Promise :=
request e ("/sessions/" +:+ sessionId)
  {| method := Some "DELETE"; headers := None; body := None |}.


End Api.

(** ** The Yjs document handle

    Yjs is a library the client imports; the relay holds the same kind of
    document.  The model keeps what the hook and the handshake use of it:
    a document is a set of inserted runs of text, each with the id
    (client, clock) of the insertion and a place in the text; an update is
    a set of such runs; merging is their union, so that it does not depend
    on the order or the number of deliveries.  The hook inserts at index 0
    only, and so does the model. *)
Module Y.

Record Item : Type := {
  position : Z;
  content : string
}.

(** One insertion's id: the client that made it and that client's clock. *)
Abbreviation Id := (N * N)%type.

Abbreviation Update := (gmap Id Item).
Abbreviation StateVector := (gmap N N).

(** [new Y.Doc()] with the client id the library drew for it; the shared
    text named 'monaco' is the document's only content. *)
Record Doc : Type := {
  clientID : N;
  items : gmap Id Item
}.

Definition new_doc (clientID : N) : Doc :=
{| clientID := clientID; items := ∅ |}.

(** [yText.length]. *)
Definition length (d : Doc) : nat :=
sum_list_with (fun kv : Id * Item => String.length (content kv.2))
  (map_to_list (items d)).

(** The clock a state vector expects next from a client. *)
Definition next_clock (sv : StateVector) (client : N) : N :=
default 0%N (sv !! client).

(** [Y.encodeStateVector(doc)]: per client, one past its latest clock. *)
Definition encodeStateVector (d : Doc) : StateVector :=
map_fold
  (fun (id : Id) (_ : Item) (sv : StateVector) =>
     <[id.1 := N.max (next_clock sv id.1) (N.succ id.2)]> sv)
  ∅ (items d).

(** [Y.encodeStateAsUpdate(doc, sv)]: the runs the holder of [sv] has not
    seen. *)
Definition encodeStateAsUpdate (d : Doc) (sv : StateVector) : Update :=
filter (fun kv : Id * Item => (next_clock sv kv.1.1 <= kv.1.2)%N) (items d).

(** [Y.applyUpdate(doc, update)]. *)
Definition applyUpdate (d : Doc) (u : Update) : Doc :=
{| clientID := clientID d; items := items d ∪ u |}.

(** The place in front of every run of the document. *)
Definition front (d : Doc) : Z :=
map_fold (fun (_ : Id) (it : Item) (p : Z) => Z.min p (position it - 1))
  0 (items d).

(** [yText.insert(0, text)]; inserting the empty string changes nothing. *)
Definition insert0 (d : Doc) (text : string) : Doc :=
if decide (text = EmptyString) then d
else
  {| clientID := clientID d;
     items :=
       <[(clientID d, next_clock (encodeStateVector d) (clientID d)) :=
           {| position := front d; content := text |}]> (items d) |}.

(** Runs are read in the order of their places; runs put at the same place
    by different clients are read in the order of their ids. *)
Definition before (a b : Id * Item) : Prop :=
position a.2 < position b.2 ∨
(position a.2 = position b.2 ∧
 ((a.1.1 < b.1.1)%N ∨ (a.1.1 = b.1.1 ∧ (a.1.2 <= b.1.2)%N))).

#[global] Instance before_dec a b : Decision (before a b).
Proof. unfold before. apply _. Defined.

Definition join_text (l : list string) : string :=
foldr String.append EmptyString l.

(** [yText.toString()]. *)
Definition toString (d : Doc) : string :=
join_text ((content ∘ snd) <$> merge_sort before (map_to_list (items d))).

End Y.

(** ** The session relay

    The relay (Session Store, Session Hub, protocol state machine) is the
    server side of the repository.  Its definitions below follow sections
    3, 4 and 6 of the specification. *)
Module Relay.

(** Modelled from the spec: the wire frames of section 6, with their
    payloads decoded: [sync-step-1] carries a state vector, [sync-step-2]
    and [update] carry a delta, [awareness] carries a small blob. *)
Inductive Frame : Type :=
| sync_step_1 (sv : Y.StateVector)
| sync_step_2 (delta : Y.Update)
| update (delta : Y.Update)
| awareness (blob : Json.t).

(** Modelled from the spec: the states of a Connection (section 4.2). *)
Inductive ConnectionState : Set :=
| connecting | syncing | synced | closing | disconnected.

#[global] Instance ConnectionState_eq_dec : EqDecision ConnectionState.
Proof. solve_decision. Defined.

(** Modelled from the spec: the Connection of section 3. *)
Record Connection : Type := {
  session_id : string;
  client_id : N;
  awareness_state : option Json.t;
  state : ConnectionState
}.

(** Modelled from the spec: the Session Hub of section 3; the state vector
    is the one of the document it owns. *)
Record Hub : Type := {
  session : string;
  document : Y.Doc;
  connections : gmap N Connection;
  last_activity : Z
}.

(** Modelled from the spec: the hub's state vector (section 3), the
    summary of what has been merged into its document. *)
Definition state_vector (h : Hub) : Y.StateVector :=
Y.encodeStateVector (document h).

(** Modelled from the spec: a frame put on the outbound channel of a
    connection (section 9). *)
Definition Delivery : Type := N * Frame.

(** Modelled from the spec: the connections a frame of [sender] is
    re-broadcast to: every other connection that satisfies [wanted]. *)
Definition others (h : Hub) (sender : N) (wanted : Connection -> bool)
  : list N :=
(map_to_list
   (filter (fun kv : N * Connection => kv.1 ≠ sender ∧ wanted kv.2 = true)
      (connections h))).*1.

(** Modelled from the spec: the raw frame, re-broadcast verbatim to each
    of them. *)
Definition broadcast (h : Hub) (sender : N) (wanted : Connection -> bool)
    (f : Frame) : list Delivery :=
(fun y => (y, f)) <$> others h sender wanted.

(** Modelled from the spec: the connection has reached [synced]. *)
Definition is_synced (c : Connection) : bool :=
bool_decide (state c = synced).


(** Modelled from the spec: the hub with a connection registered in its
    set, keyed by client id. *)
Definition with_connection (h : Hub) (c : Connection) : Hub :=
{| session := session h;
   document := document h;
   connections := <[client_id c := c]> (connections h);
   last_activity := last_activity h |}.

(** Modelled from the spec: transitions 1 and 2 of section 4.2.  The
    transport is accepted, the connection is registered, and on entry to
    [syncing] the hub sends its state vector to it. *)
Definition accept (h : Hub) (x : N) : Hub * list Delivery :=
(with_connection h
   {| session_id := session h; client_id := x;
      awareness_state := None; state := syncing |},
 [(x, sync_step_1 (state_vector h))]).

(** Modelled from the spec: what the hub does with one inbound frame of
    connection [x] at time [now] (section 4.2, transitions 2 to 4).  A
    state vector is answered with the delta its sender is missing.  A
    delta is merged into the document and re-broadcast verbatim to every
    other [synced] connection; the sender, which has now completed its
    round of the handshake, is [synced].  An awareness frame replaces the
    sender's awareness state and is re-broadcast to all other
    connections. *)
Definition on_frame (now : Z) (h : Hub) (x : N) (f : Frame)
  : Hub * list Delivery :=
match connections h !! x with
| None => (h, [])
| Some c =>
    match f with
    | sync_step_1 sv =>
        ({| session := session h; document := document h;
            connections := connections h; last_activity := now |},
         [(x, sync_step_2 (Y.encodeStateAsUpdate (document h) sv))])
    | sync_step_2 delta | update delta =>
        ({| session := session h;
            document := Y.applyUpdate (document h) delta;
            connections :=
              <[x := {| session_id := session_id c; client_id := client_id c;
                        awareness_state := awareness_state c;
                        state := if decide (state c = syncing) then synced
                                 else state c |}]> (connections h);
            last_activity := now |},
         broadcast h x is_synced f)
    | awareness blob =>
        ({| session := session h; document := document h;
            connections :=
              <[x := {| session_id := session_id c; client_id := client_id c;
                        awareness_state := Some blob;
                        state := state c |}]> (connections h);
            last_activity := now |},
         broadcast h x (fun _ => true) f)
    end
end.

(** Modelled from the spec: the Session Record of section 3. *)
Record SessionRecord : Type := {
  id : string;
  language : string;
  title : option string;
  created_at : string;
  status : SessionStatus;
  record_document : Y.Doc
}.

(** Modelled from the spec: the argument of [update], section 4.1. *)
Record Changes : Type := {
  new_language : option string;
  new_title : option string
}.

(** Modelled from the spec: [create] of section 4.1.  The id, the time,
    the client id of the document and the language of a request that names
    none are the store's to choose. *)
Definition create (store : gmap string SessionRecord)
    (fresh_id now : string) (doc_client : N) (default_language : string)
    (language : option string) (initial_code : option string)
    (title : option string) : gmap string SessionRecord * SessionRecord :=
let r :=
  {| id := fresh_id;
     language := default default_language language;
     title := title;
     created_at := now;
     status := active;
     record_document :=
       Y.insert0 (Y.new_doc doc_client) (default EmptyString initial_code) |} in
(<[fresh_id := r]> store, r).

(** Modelled from the spec: [update] of section 4.1, metadata only;
    [None] is NotFound. *)
Definition update_session (store : gmap string SessionRecord) (sid : string)
    (c : Changes) : option (gmap string SessionRecord * SessionRecord) :=
match store !! sid with
| None => None
| Some r =>
    let r' :=
      {| id := id r;
         language := default (language r) (new_language c);
         title := match new_title c with Some t => Some t | None => title r end;
         created_at := created_at r;
         status := status r;
         record_document := record_document r |} in
    Some (<[sid := r']> store, r')
end.

(** Modelled from the spec: [participants_count] is derived from the live
    connections of the session's hub (section 3). *)
Definition participants_count (hubs : gmap string Hub) (sid : string) : nat :=
match hubs !! sid with
| Some h => size (connections h)
| None => 0%nat
end.


End Relay.

(** ** hooks/useYjs.ts *)
Module UseYjs.

(** The editor handed to [bindEditor], and the [MonacoBinding] made for
    it. *)
Definition Editor : Type := N.

Record MonacoBinding : Type := new_MonacoBinding { bound_editor : Editor }.

(** [new WebsocketProvider(serverUrl, roomname, doc, ...)]; [states] is the
    map [provider.awareness.getStates()] returns. *)
Record WebsocketProvider : Type := {
  serverUrl : string;
  roomname : string;
  states : gmap N Json.t
}.


(** The four pieces of React state, the five refs, and the variable
    [initialCodeInserted] of the running effect. *)
Record Hook : Type := {
  isConnected : bool;
  isLoading : bool;
  error : option string;
  participantsCount : nat;
  docRef : option Y.Doc;
  providerRef : option WebsocketProvider;
  bindingRef : option MonacoBinding;
  editorRef : option Editor;
  initializedRef : option string;
  initialCodeInserted : bool
}.

(** The state of the first render. *)
Definition initial : Hook :=
{| isConnected := false; isLoading := false; error := None;
   participantsCount := 0%nat; docRef := None; providerRef := None;
   bindingRef := None; editorRef := None; initializedRef := None;
   initialCodeInserted := false |}.

(** A call of one of the four state setters. *)
Inductive SetState : Type :=
| setIsConnected (b : bool)
| setIsLoading (b : bool)
| setError (e : option string)
| setParticipantsCount (n : nat).

Definition set_state (h : Hook) (s : SetState) : Hook :=
match s with
| setIsConnected b =>
    {| isConnected := b; isLoading := isLoading h; error := error h;
       participantsCount := participantsCount h; docRef := docRef h;
       providerRef := providerRef h; bindingRef := bindingRef h;
       editorRef := editorRef h; initializedRef := initializedRef h;
       initialCodeInserted := initialCodeInserted h |}
| setIsLoading b =>
    {| isConnected := isConnected h; isLoading := b; error := error h;
       participantsCount := participantsCount h; docRef := docRef h;
       providerRef := providerRef h; bindingRef := bindingRef h;
       editorRef := editorRef h; initializedRef := initializedRef h;
       initialCodeInserted := initialCodeInserted h |}
| setError e =>
    {| isConnected := isConnected h; isLoading := isLoading h; error := e;
       participantsCount := participantsCount h; docRef := docRef h;
       providerRef := providerRef h; bindingRef := bindingRef h;
       editorRef := editorRef h; initializedRef := initializedRef h;
       initialCodeInserted := initialCodeInserted h |}
| setParticipantsCount n =>
    {| isConnected := isConnected h; isLoading := isLoading h;
       error := error h; participantsCount := n; docRef := docRef h;
       providerRef := providerRef h; bindingRef := bindingRef h;
       editorRef := editorRef h; initializedRef := initializedRef h;
       initialCodeInserted := initialCodeInserted h |}
end.

(** The setters a callback calls, applied in the order of the calls. *)
Definition set_states (h : Hook) (calls : list SetState) : Hook :=
foldl set_state h calls.

Definition with_refs (h : Hook) (doc : option Y.Doc)
    (provider : option WebsocketProvider) (binding : option MonacoBinding)
    (initialized : option string) (inserted : bool) : Hook :=
{| isConnected := isConnected h; isLoading := isLoading h; error := error h;
   participantsCount := participantsCount h; docRef := doc;
   providerRef := provider; bindingRef := binding; editorRef := editorRef h;
   initializedRef := initialized; initialCodeInserted := inserted |}.

(** [cleanup]: the binding, the provider and the document are destroyed
    and their refs cleared, then the two setters are called. *)
Definition cleanup (h : Hook) : Hook :=
set_states
  (with_refs h None None None (initializedRef h) (initialCodeInserted h))
  [setIsConnected false; setParticipantsCount 0%nat].

(** The page the hook runs in. *)
Record Window : Type := {
  VITE_WS_URL : option string;
  protocol : string;
  host : string
}.

Definition wsUrl (w : Window) : string :=
match VITE_WS_URL w with
| Some u =>
    if decide (u = EmptyString)
    then (if decide (protocol w = "https:") then "wss:" else "ws:")
         +:+ "//" +:+ host w +:+ "/ws"
    else u
| None =>
    (if decide (protocol w = "https:") then "wss:" else "ws:")
    +:+ "//" +:+ host w +:+ "/ws"
end.

(** [!sessionId]: the id is [null] or the empty string. *)
Definition no_session (sessionId : option string) : bool :=
match sessionId with
| None => true
| Some s => bool_decide (s = EmptyString)
end.

(** The callback of [provider.awareness.on('change', ...)]. *)
Definition on_awareness_change (p : WebsocketProvider) : list SetState :=
[setParticipantsCount (size (states p))].

(** The callback of [provider.on('status', ...)]. *)
Definition on_status (status : string) : list SetState :=
[setIsConnected (bool_decide (status = "connected"));
 setIsLoading (bool_decide (status = "connecting"))].

(** The callback of [provider.on('connection-error', ...)]. *)
Definition on_connection_error : list SetState :=
[setError (Some "Failed to connect to collaboration server");
 setIsLoading false].

(** The callback of [provider.on('connection-close', ...)]. *)
Definition on_connection_close (code : Z) : list SetState :=
(if decide (code = 4004) then [setError (Some "Session not found")] else [])
++ [setIsConnected false].

(** The callback of [provider.on('synced', ...)]: the initial code is
    inserted once, after a sync that left the text empty. *)
Definition on_synced (initialCode : string) (isSynced : bool) (h : Hook)
  : Hook :=
match docRef h with
| None => h
| Some doc =>
    if isSynced && negb (initialCodeInserted h)
       && bool_decide (Y.length doc = 0%nat)
       && negb (bool_decide (initialCode = EmptyString))
    then with_refs h (Some (Y.insert0 doc initialCode)) (providerRef h)
           (bindingRef h) (initializedRef h) true
    else h
end.

(** The body of the effect that depends on [sessionId], [initialCode] and
    [cleanup].  [clientID] is the id the new document draws and
    [localState] the awareness state built from [Math.random()]. *)
Definition effect (w : Window) (clientID : N) (localState : Json.t)
    (sessionId : option string) (initialCode : string) (h : Hook) : Hook :=
match sessionId with
| None => cleanup h
| Some sid =>
    if no_session sessionId then cleanup h
    else if decide (initializedRef h = Some sid) then h
    else
      let provider :=
        {| serverUrl := wsUrl w; roomname := sid;
           states := {[clientID := localState]} |} in
      let h1 := set_states h [setIsLoading true; setError None] in
      let h2 :=
        with_refs h1 (Some (Y.new_doc clientID)) (Some provider)
          (match editorRef h1 with
           | Some ed => Some (new_MonacoBinding ed)
           | None => bindingRef h1
           end)
          (Some sid) false in
      set_states h2 (on_awareness_change provider)
end.

(** The function the effect returns, run before the next effect and on
    unmount. *)
Definition effect_cleanup (h : Hook) : Hook :=
cleanup
  (with_refs h (docRef h) (providerRef h) (bindingRef h) None
     (initialCodeInserted h)).

(** [bindEditor]. *)
Definition bindEditor (editor : Editor) (h : Hook) : Hook :=
let h1 :=
  {| isConnected := isConnected h; isLoading := isLoading h;
     error := error h; participantsCount := participantsCount h;
     docRef := docRef h; providerRef := providerRef h;
     bindingRef := bindingRef h; editorRef := Some editor;
     initializedRef := initializedRef h;
     initialCodeInserted := initialCodeInserted h |} in
match docRef h1, providerRef h1 with
| Some _, Some _ =>
    with_refs h1 (docRef h1) (providerRef h1)
      (Some {| bound_editor := editor |}) (initializedRef h1)
      (initialCodeInserted h1)
| _, _ => h1
end.

(** What the provider reports to the callbacks registered on it.  An
    awareness change comes with the map the library has just updated. *)
Inductive Event : Type :=
| synced_event (isSynced : bool)
| status_event (status : string)
| awareness_change (now : gmap N Json.t)
| connection_error
| connection_close (code : Z).

(** The registered callback run for an event; a destroyed provider
    reports nothing. *)
Definition dispatch (initialCode : string) (h : Hook) (e : Event) : Hook :=
match providerRef h with
| None => h
| Some p =>
    match e with
    | synced_event isSynced => on_synced initialCode isSynced h
    | status_event status => set_states h (on_status status)
    | awareness_change now =>
        let p' :=
          {| serverUrl := serverUrl p; roomname := roomname p;
             states := now |} in
        set_states
          (with_refs h (docRef h) (Some p') (bindingRef h)
             (initializedRef h) (initialCodeInserted h))
          (on_awareness_change p')
    | connection_error => set_states h on_connection_error
    | connection_close code => set_states h (on_connection_close code)
    end
end.

End UseYjs.

(** ** The other copy of the hook among the sources

    A second file with the same header as hooks/useYjs.ts differs from it
    in the effect: the initial code is inserted into the new document
    before the provider is created, the session id is part of the server
    url, there is no [initializedRef], and the effect returns [cleanup]
    itself.  Its state, callbacks and [cleanup] are those of [UseYjs]. *)
Module UseYjs_part_002.
Import UseYjs.

Definition wsUrl (w : Window) (sessionId : string) : string :=
(if decide (protocol w = "https:") then "wss:" else "ws:")
+:+ "//" +:+ host w +:+ "/ws/" +:+ sessionId.

Definition effect (w : Window) (clientID : N) (localState : Json.t)
    (sessionId : option string) (initialCode : string) (h : Hook) : Hook :=
match sessionId with
| None => cleanup h
| Some sid =>
    if no_session sessionId then cleanup h
    else
      let doc := Y.new_doc clientID in
      let doc :=
        if bool_decide (Y.length doc = 0%nat)
           && negb (bool_decide (initialCode = EmptyString))
        then Y.insert0 doc initialCode else doc in
      let provider :=
        {| serverUrl := wsUrl w sid; roomname := sid;
           states := {[clientID := localState]} |} in
      let h1 := set_states h [setIsLoading true; setError None] in
      let h2 :=
        with_refs h1 (Some doc) (Some provider)
          (match editorRef h1 with
           | Some ed => Some (new_MonacoBinding ed)
           | None => bindingRef h1
           end)
          (initializedRef h1) (initialCodeInserted h1) in
      set_states h2 (on_awareness_change provider)
end.

Definition effect_cleanup (h : Hook) : Hook := cleanup h.

End UseYjs_part_002.

(** ** The provider on the wire

    What [y-websocket] does once the hook has created the provider with
    [connect: true]: it opens the connection named by the room, answers
    the relay's state vector with the delta the relay is missing, sends
    its own state vector, applies the delta that comes back and then
    reports [synced]; a later local change of the document is sent as an
    [update] frame. *)
Module Provider.

(** The frames among [out] addressed to [x], applied to [doc] in order. *)
Definition receive (x : N) (doc : Y.Doc) (out : list Relay.Delivery) : Y.Doc :=
foldl
  (fun d (dl : Relay.Delivery) =>
     if decide (dl.1 = x) then
       match dl.2 with
       | Relay.sync_step_2 delta | Relay.update delta => Y.applyUpdate d delta
       | _ => d
       end
     else d)
  doc out.

(** The handshake of a client whose document is [doc], up to the moment
    the provider reports [synced]: the hub afterwards, and the client's
    document afterwards. *)
Definition connect (now : Z) (h : Relay.Hub) (doc : Y.Doc)
  : Relay.Hub * Y.Doc :=
let x := Y.clientID doc in
let '(h1, greeting) := Relay.accept h x in
let '(h2, reply) :=
  Relay.on_frame now h1 x (Relay.sync_step_1 (Y.encodeStateVector doc)) in
let doc' := receive x doc reply in
let '(h3, _) :=
  Relay.on_frame now h2 x
    (Relay.sync_step_2
       (Y.encodeStateAsUpdate doc (Relay.state_vector h1))) in
(h3, doc').

(** A change made locally to a synced document: what the relay has not
    seen of it is sent as one [update] frame. *)
Definition publish (now : Z) (h : Relay.Hub) (doc : Y.Doc) : Relay.Hub :=
(Relay.on_frame now h (Y.clientID doc)
   (Relay.update (Y.encodeStateAsUpdate doc (Relay.state_vector h)))).1.

End Provider.

(** ** A client joins a session

    The hook's effect runs for the session id, the provider connects and
    reports [synced], and the callback registered for it runs. *)
Module Join.
Import UseYjs.

(** With hooks/useYjs.ts. *)
Definition join (now : Z) (w : Window) (clientID : N) (localState : Json.t)
    (sid : string) (initialCode : string) (hub : Relay.Hub)
  : Relay.Hub * Hook :=
let h1 := UseYjs.effect w clientID localState (Some sid) initialCode initial in
match docRef h1 with
| None => (hub, h1)
| Some doc =>
    let '(hub1, doc1) := Provider.connect now hub doc in
    let h2 :=
      with_refs h1 (Some doc1) (providerRef h1) (bindingRef h1)
        (initializedRef h1) (initialCodeInserted h1) in
    let h3 := dispatch initialCode h2 (synced_event true) in
    (match docRef h3 with
     | Some doc3 =>
         if initialCodeInserted h3 then Provider.publish now hub1 doc3
         else hub1
     | None => hub1
     end, h3)
end.

(** With the other copy of the hook. *)
Definition join_part_002 (now : Z) (w : Window) (clientID : N)
    (localState : Json.t) (sid : string) (initialCode : string)
    (hub : Relay.Hub) : Relay.Hub * Hook :=
let h1 :=
  UseYjs_part_002.effect w clientID localState (Some sid) initialCode initial in
match docRef h1 with
| None => (hub, h1)
| Some doc =>
    let '(hub1, doc1) := Provider.connect now hub doc in
    (hub1,
     with_refs h1 (Some doc1) (providerRef h1) (bindingRef h1)
       (initializedRef h1) (initialCodeInserted h1))
end.

(** The text the joined client's editor shows. *)
Definition text_of (h : Hook) : string :=
match docRef h with
| Some doc => Y.toString doc
| None => EmptyString
end.

End Join.

(** ** App.tsx *)
Module App.

(** [window.location]: the path and the query parameters in order. *)
Record Location : Type := {
  pathname : string;
  search : list (string * string)
}.

(** [new URLSearchParams(search).get(name)]. *)
Fixpoint get_param (params : list (string * string)) (name : string)
  : option string :=
match params with
| [] => None
| (k, v) :: rest => if decide (k = name) then Some v else get_param rest name
end.


Record State : Type := {
  sessionId : option string;
  session : option Session.t;
  isCreatingSession : bool;
  language : ProgrammingLanguage;
  code : string;
  isRunning : bool;
  result : option ExecuteResult.t;
  location : Location
}.

(** The first render at a given address. *)
Definition initial (loc : Location) : State :=
{| sessionId := None; session := None; isCreatingSession := false;
   language := python; code := DEFAULT_CODE python; isRunning := false;
   result := None; location := loc |}.

(** The options [App] passes to [useYjs]. *)
Definition useYjs_options (st : State) : option string * string :=
(sessionId st, code st).

(** The [.then] callback of the effect run on mount. *)
Definition session_loaded (sess : Session.t) (st : State) : State :=
{| sessionId := Some (Session.id sess); session := Some sess;
   isCreatingSession := isCreatingSession st;
   language := Session.language sess; code := code st;
   isRunning := isRunning st; result := result st;
   location := location st |}.

(** The [.catch] callback of the effect run on mount:
    [window.history.replaceState({}, '', window.location.pathname)]. *)
Definition session_failed (st : State) : State :=
{| sessionId := sessionId st; session := session st;
   isCreatingSession := isCreatingSession st; language := language st;
   code := code st; isRunning := isRunning st; result := result st;
   location :=
     {| pathname := pathname (location st); search := [] |} |}.

(** The effect run on mount, with the calls of [fetch] it makes.  A value
    the server sends that is no [Session] is outside what the types of the
    client describe: [None]. *)
Definition on_mount (e : Api.Env) (st : State)
  : option (State * list Api.Call) :=
match get_param (search (location st)) "session" with
| None => Some (st, [])
| Some urlSessionId =>
    if decide (urlSessionId = EmptyString) then Some (st, [])
    else
      let p := Api.getSession e urlSessionId in
      match Api.settled p with
      | Rejected _ => Some (session_failed st, Api.fetched p)
      | Fulfilled Json.JNull =>
          Some
            (session_failed
               {| sessionId := sessionId st; session := None;
                  isCreatingSession := isCreatingSession st;
                  language := language st; code := code st;
                  isRunning := isRunning st; result := result st;
                  location := location st |},
             Api.fetched p)
      | Fulfilled j =>
          match SessionJson.of_json j with
          | Some sess => Some (session_loaded sess st, Api.fetched p)
          | None => None
          end
      end
end.


(** [handleLanguageChange]: the new state and the calls of [fetch]
    made. *)
Definition handleLanguageChange (e : Api.Env)
    (newLanguage : ProgrammingLanguage) (st : State)
  : State * list Api.Call :=
let st1 :=
  {| sessionId := sessionId st; session := session st;
     isCreatingSession := isCreatingSession st; language := newLanguage;
     code :=
       if UseYjs.no_session (sessionId st) then DEFAULT_CODE newLanguage
       else code st;
     isRunning := isRunning st; result := result st;
     location := location st |} in
match sessionId st with
| Some sid =>
    if UseYjs.no_session (sessionId st) then (st1, [])
    else
      (st1,
       Api.fetched
         (Api.updateSession e sid
            {| Api.language := Some (language_literal newLanguage);
               Api.title := None |}))
| None => (st1, [])
end.

(** The [onChange] that [App] gives the editor: [setCode(value || '')]. *)
Definition editor_changed (value : option string) (st : State) : State :=
{| sessionId := sessionId st; session := session st;
   isCreatingSession := isCreatingSession st; language := language st;
   code := default EmptyString value;
   isRunning := isRunning st; result := result st;
   location := location st |}.


(** The state while [handleRunCode] awaits the executor. *)
Definition running (st : State) : State :=
{| sessionId := sessionId st; session := session st;
   isCreatingSession := isCreatingSession st; language := language st;
   code := code st; isRunning := true; result := None;
   location := location st |}.



End App.

(** ** The life of a mounted hook

    React runs the effect and the function the effect returned, the
    provider reports events to the callbacks, and the editor mounts; any
    order of these is allowed for, which covers the orders React and the
    provider produce. *)
Module Lifecycle.
Import UseYjs.

Inductive Step : Type :=
| run_effect (w : Window) (clientID : N) (localState : Json.t)
    (sessionId : option string) (initialCode : string)
| run_effect_part_002 (w : Window) (clientID : N) (localState : Json.t)
    (sessionId : option string) (initialCode : string)
| run_effect_cleanup
| report (initialCode : string) (e : Event)
| mount_editor (editor : Editor).

Definition step (h : Hook) (s : Step) : Hook :=
match s with
| run_effect w clientID localState sessionId initialCode =>
    effect w clientID localState sessionId initialCode h
| run_effect_part_002 w clientID localState sessionId initialCode =>
    UseYjs_part_002.effect w clientID localState sessionId initialCode h
| run_effect_cleanup => effect_cleanup h
| report initialCode e => dispatch initialCode h e
| mount_editor editor => bindEditor editor h
end.

Definition run (steps : list Step) : Hook := foldl step initial steps.

(** [provider.awareness.getStates().size] at this moment, and 0 when no
    provider is alive. *)
Definition live_count (h : Hook) : nat :=
match providerRef h with
| Some p => size (states p)
| None => 0%nat
end.

End Lifecycle.

(** ** types.ts, the two tables of the selector and the editor *)

Definition LANGUAGE_MAP (l : ProgrammingLanguage) : string :=
match l with
| python => "python" | javascript => "javascript"
| typescript => "typescript" | java => "java" | cpp => "cpp"
| go => "go" | rust => "rust" | ruby => "ruby" | php => "php"
| sql => "sql"
end.

Definition LANGUAGE_LABELS (l : ProgrammingLanguage) : string :=
match l with
| python => "Python" | javascript => "JavaScript"
| typescript => "TypeScript" | java => "Java" | cpp => "C++"
| go => "Go" | rust => "Rust" | ruby => "Ruby" | php => "PHP"
| sql => "SQL"
end.

(** ** components/LanguageSelector.tsx *)
Module LanguageSelector.

Definition LANGUAGES : list ProgrammingLanguage :=
[python; javascript; typescript; java; cpp; go; rust; ruby; php; sql].

(** One [<option>]: its value and the text it shows. *)
Record Option : Type := {
  value : string;
  label : string
}.

(** The options of the [<select>], in order. *)
Definition options : list Option :=
(fun lang => {| value := language_literal lang;
                label := LANGUAGE_LABELS lang |}) <$> LANGUAGES.

(** The argument [onChange] is called with when the user picks the
    option at the given place: [e.target.value], taken as a
    [ProgrammingLanguage]. *)
Definition picked (place : nat) : option string :=
value <$> options !! place.

End LanguageSelector.

(** ** components/OutputPanel.tsx *)
Module OutputPanel.


(** What the body shows. *)
Inductive Piece : Type :=
| spinner
| stdout_text (text : string)
| stderr_text (text : string)
| error_text (error_type : option string) (text : string)
| no_output
| click_run.

(** Truthiness of a string that may be [undefined]. *)
Definition shown (text : option string) : bool :=
match text with
| Some t => negb (bool_decide (t = EmptyString))
| None => false
end.


Definition body (result : option ExecuteResult.t) (isRunning : bool)
  : list Piece :=
if isRunning then [spinner]
else
  match result with
  | None => [click_run]
  | Some r =>
      (if shown (Some (ExecuteResult.output r))
       then [stdout_text (ExecuteResult.output r)] else [])
      ++ (if shown (ExecuteResult.stderr r)
          then [stderr_text (default EmptyString (ExecuteResult.stderr r))]
          else [])
      ++ (if shown (ExecuteResult.error r)
          then [error_text
                  (if shown (ExecuteResult.error_type r)
                   then ExecuteResult.error_type r else None)
                  (default EmptyString (ExecuteResult.error r))]
          else [])
      ++ (if negb (shown (Some (ExecuteResult.output r)))
             && negb (shown (ExecuteResult.stderr r))
             && negb (shown (ExecuteResult.error r))
          then [no_output] else [])
  end.

End OutputPanel.

(** ** vite.config.ts *)
Module ViteConfig.

(** The rest of a string after its first [n] characters. *)
Fixpoint skip (n : nat) (s : string) : string :=
match n, s with
| O, _ => s
| S n', String _ rest => skip n' rest
| S _, EmptyString => EmptyString
end.

(** [s.replace(pattern, replacement)] for a string pattern and a
    replacement without [$]: the first occurrence is replaced. *)
Fixpoint replace (pattern replacement s : string) : string :=
if String.prefix pattern s then
  replacement +:+ skip (String.length pattern) s
else
  match s with
  | EmptyString => EmptyString
  | String c rest => String c (replace pattern replacement rest)
  end.

(** Whether the pattern occurs in the string. *)
Fixpoint includes (pattern s : string) : bool :=
String.prefix pattern s
|| match s with
   | EmptyString => false
   | String _ rest => includes pattern rest
   end.

(** [process.env.VITE_BACKEND_URL || 'http://localhost:8000']. *)
Definition backendUrl (VITE_BACKEND_URL : option string) : string :=
match VITE_BACKEND_URL with
| Some u => if decide (u = EmptyString) then "http://localhost:8000" else u
| None => "http://localhost:8000"
end.

Definition backendWsUrl (VITE_BACKEND_URL : option string) : string :=
replace "http" "ws" (backendUrl VITE_BACKEND_URL).

(** The two entries of [server.proxy]: the path prefix and its target. *)
Definition proxy (VITE_BACKEND_URL : option string) : list (string * string) :=
[("/api", backendUrl VITE_BACKEND_URL); ("/ws", backendWsUrl VITE_BACKEND_URL)].

End ViteConfig.

(** ** The address bar

    What the browser makes of an address: [location.search] is the part
    from the first question mark to the fragment, and
    [new URLSearchParams(search)] reads it as a form: pairs separated by
    ampersands, name and value separated by the first equals sign, a plus
    read as a space and a percent escape as the byte it names.  Strings
    are byte strings here; the browser's replacement of bytes that are not
    UTF-8 is not modelled. *)
Module Url.

Definition has_code (c : Ascii.ascii) (code : N) : bool :=
(Ascii.N_of_ascii c =? code)%N.


(** The part of a string before the first occurrence of a character. *)
Fixpoint before (code : N) (s : string) : string :=
match s with
| EmptyString => EmptyString
| String c rest => if has_code c code then EmptyString
                   else String c (before code rest)
end.



Fixpoint split (code : N) (s : string) : list string :=
match s with
| EmptyString => [EmptyString]
| String c rest =>
    if has_code c code then EmptyString :: split code rest
    else
      match split code rest with
      | piece :: pieces => String c piece :: pieces
      | [] => [String c EmptyString]
      end
end.







End Url.

(** ** components/ShareButton.tsx *)
Module ShareButton.




(** What the component renders. *)
Inductive View : Type :=
| create_button (text : string) (disabled : bool)
| share_link (sessionId : string) (copy_text : string).

Definition render (sessionId : option string) (isCreating : bool)
    (is_copied : bool) : View :=
match sessionId with
| Some sid =>
    if UseYjs.no_session sessionId
    then create_button
           (if isCreating then "Creating..." else "Create & Share") isCreating
    else share_link sid (if is_copied then "Copied!" else "Copy Link")
| None =>
    create_button
      (if isCreating then "Creating..." else "Create & Share") isCreating
end.

End ShareButton.

(** ** lib/executor.ts, the loader of Pyodide

    The two variables of the module and [loadPyodide].  Runs are started
    one after the other (the Run button is disabled while one is under
    way), so the promise kept in [pyodideLoading] is kept with how it
    settles. *)
Module Pyodide.

Definition Instance : Type := N.

(** What the CDN does for one attempt to load: the script fails to load,
    [window.loadPyodide] rejects, it fulfils with an instance, or nothing
    ever comes back. *)
Inductive Cdn : Type :=
| script_error
| init_rejected (message : string)
| ready (instance : Instance)
| silent.

(** How a promise of the loader settles; [None] is never. *)
Definition Loading : Type := option (Settled Instance string).

Record Vars : Type := {
  pyodideInstance : option Instance;
  pyodideLoading : option Loading;
  (** the script elements appended to the document head so far *)
  scripts : nat
}.

Definition unloaded : Vars :=
{| pyodideInstance := None; pyodideLoading := None; scripts := 0 |}.

Definition settles (cdn : Cdn) : Loading :=
match cdn with
| script_error => Some (Rejected "Failed to load Pyodide")
| init_rejected message => Some (Rejected message)
| ready instance => Some (Fulfilled instance)
| silent => None
end.

(** [loadPyodide()], given what the CDN would do if asked now. *)
Definition loadPyodide (cdn : Cdn) (v : Vars) : Vars * Loading :=
match pyodideInstance v with
| Some instance => (v, Some (Fulfilled instance))
| None =>
    match pyodideLoading v with
    | Some loading => (v, loading)
    | None =>
        ({| pyodideInstance :=
              match cdn with ready instance => Some instance | _ => None end;
            pyodideLoading := Some (settles cdn);
            scripts := S (scripts v) |},
         settles cdn)
    end
end.

(** [executePython] with the loader spelled out: [runs] tells how the
    code fares on an instance. *)
Definition executePython (cdn : Cdn)
    (runs : Instance -> string -> option Executor.PyRun) (elapsed : Z)
    (code : string) (v : Vars) : Vars * Executor.Outcome :=
let loaded := loadPyodide cdn v in
(loaded.1,
 Executor.executePython
   {| Executor.run_javascript := fun _ => None;
      Executor.run_python :=
        fun c =>
          match loaded.2 with
          | None => None
          | Some (Rejected message) => Some (Executor.py_unavailable message)
          | Some (Fulfilled instance) => runs instance c
          end;
      Executor.elapsed_ms := elapsed |}
   code).

(** One run of Python code: what the CDN would do if asked at that
    moment, the time the run takes, and the code. *)
Record Run : Type := {
  cdn_then : Cdn;
  elapsed_then : Z;
  code_run : string
}.

(** Runs one after the other. *)
Fixpoint run_all (runs : Instance -> string -> option Executor.PyRun)
    (calls : list Run) (v : Vars) : Vars * list Executor.Outcome :=
match calls with
| [] => (v, [])
| call :: rest =>
    let r :=
      executePython (cdn_then call) runs (elapsed_then call) (code_run call) v in
    let rs := run_all runs rest r.1 in
    (rs.1, r.2 :: rs.2)
end.

End Pyodide.

(** ** The hook under React

    React runs the effect after a render whose dependencies differ from
    those of the last run, after the function the last run returned, if it
    returned one; in strict mode it runs that function and the effect once
    more on mount.  The dependencies are [sessionId], [initialCode] and
    [cleanup], which never changes. *)
Module Rendered.
Import UseYjs.

Record Deps : Type := {
  sessionId : option string;
  initialCode : string
}.

#[global] Instance Deps_eq_dec : EqDecision Deps.
Proof. solve_decision. Defined.

Record Component : Type := {
  hook : Hook;
  (** the dependencies of the last run of the effect *)
  last : option Deps;
  (** whether that run returned a function *)
  returned_cleanup : bool
}.

Definition mounted : Component :=
{| hook := initial; last := None; returned_cleanup := false |}.

(** The effect run for [deps], after the function the last run
    returned. *)
Definition rerun (w : Window) (clientID : N) (localState : Json.t)
    (deps : Deps) (c : Component) : Component :=
let h := if returned_cleanup c then effect_cleanup (hook c) else hook c in
{| hook := effect w clientID localState (sessionId deps) (initialCode deps) h;
   last := Some deps;
   returned_cleanup :=
     negb (no_session (sessionId deps))
     && negb (bool_decide (initializedRef h = sessionId deps)) |}.

(** A render with the given options: the effect runs if they differ from
    those of its last run. *)
Definition render (w : Window) (clientID : N) (localState : Json.t)
    (deps : Deps) (c : Component) : Component :=
if decide (last c = Some deps) then c
else rerun w clientID localState deps c.

Inductive Step : Type :=
| rendered (w : Window) (clientID : N) (localState : Json.t) (deps : Deps)
| strict_remount (w : Window) (clientID : N) (localState : Json.t)
| reported (e : Event)
| editor_mounted (editor : Editor).

Definition step (c : Component) (s : Step) : Component :=
match s with
| rendered w clientID localState deps =>
    render w clientID localState deps c
| strict_remount w clientID localState =>
    match last c with
    | Some deps => rerun w clientID localState deps c
    | None => c
    end
| reported e =>
    {| hook :=
         dispatch (default EmptyString (initialCode <$> last c)) (hook c) e;
       last := last c; returned_cleanup := returned_cleanup c |}
| editor_mounted editor =>
    {| hook := bindEditor editor (hook c);
       last := last c; returned_cleanup := returned_cleanup c |}
end.

Definition run (steps : list Step) : Component := foldl step mounted steps.

(** The options [App] passes to the hook, as the dependencies of the
    effect. *)
Definition deps_of (st : App.State) : Deps :=
{| sessionId := (App.useYjs_options st).1;
   initialCode := (App.useYjs_options st).2 |}.

(** What the body of the effect leaves behind when it runs to its end
    for the session [sid]: a new document, a new provider for the room
    with the local awareness state alone, the loading flag set, the error
    cleared, and a function returned to React. *)
Definition initialised (w : Window) (clientID : N) (localState : Json.t)
    (sid : string) (c : Component) : Prop :=
docRef (hook c) = Some (Y.new_doc clientID) /\
providerRef (hook c)
  = Some {| serverUrl := wsUrl w; roomname := sid;
            states := {[clientID := localState]} |} /\
initialCodeInserted (hook c) = false /\
isLoading (hook c) = true /\
error (hook c) = None /\
participantsCount (hook c) = 1%nat /\
initializedRef (hook c) = Some sid /\
returned_cleanup c = true.

End Rendered.

(** ** Inputs of the examples *)
Module Inputs.
Import Executor.

(** A browser in which the code given to it logs one line and then
    throws [null]. *)
Definition throws_null : Browser :=
{| run_javascript := fun _ =>
     Some {| calls := [{| method := c_log; args := ["partial"] |}];
             completion := threw thrown_nullish |};
   run_python := fun _ => None;
   elapsed_ms := 1 |}.

(** A network whose every answer is the one given. *)
Definition answering (a : Api.Fetched) : Api.Env :=
{| Api.VITE_API_URL := None; Api.fetch := fun _ _ => a |}.

(** A 404 whose body is the JSON object with no properties. *)
Definition bare_404 : Api.Response :=
{| Api.status := 404; Api.body_of := Api.parsed (Json.JObj []) |}.

(** The 404 of the session service. *)
Definition not_found_404 : Api.Response :=
{| Api.status := 404;
   Api.body_of :=
     Api.parsed (Json.JObj [("detail", Json.JStr "Session not found")]) |}.


(** The page of a development server. *)
Definition dev_window : UseYjs.Window :=
{| UseYjs.VITE_WS_URL := None; UseYjs.protocol := "http:";
   UseYjs.host := "localhost:5173" |}.

(** The awareness state a client sets for itself. *)
Definition some_user : Json.t :=
Json.JObj
  [("user",
    Json.JObj [("name", Json.JStr "User-k3x9");
               ("color", Json.JStr "#1a2b3c")])].

(** A hook whose effect has run for the session abc. *)
Definition mounted : UseYjs.Hook :=
UseYjs.effect dev_window 7 some_user (Some "abc") EmptyString UseYjs.initial.


(** The hub of a session the store has just created with the given
    initial code, before anyone has connected. *)
Definition fresh_hub (initial_code : string) : Relay.Hub :=
{| Relay.session := "abc";
   Relay.document :=
     Relay.record_document
       (Relay.create ∅ "abc" "2024-01-01T00:00:00Z" 0 "python"
          (Some "python") (Some initial_code) None).2;
   Relay.connections := ∅;
   Relay.last_activity := 0 |}.

(** The address of a page opened on the link of the session abc. *)
Definition session_link : App.Location :=
{| App.pathname := "/"; App.search := [("session", "abc")] |}.

(** The address of a page opened with a stale session id, as in the end
    to end test. *)
Definition stale_address : App.Location :=
{| App.pathname := "/"; App.search := [("session", "nonexistent123")] |}.


(** The session abc as the server describes it. *)
Definition session_abc : Session.t :=
Session.mk "abc" "/?session=abc" "/ws/abc" go None "2024-01-01T00:00:00Z"
  active 0.

Definition session_abc_json : Json.t :=
Json.JObj
  [("id", Json.JStr "abc"); ("url", Json.JStr "/?session=abc");
   ("websocket_url", Json.JStr "/ws/abc");
   ("language", Json.JStr "go"); ("title", Json.JNull);
   ("created_at", Json.JStr "2024-01-01T00:00:00Z");
   ("status", Json.JStr "active");
   ("participants_count", Json.JNum 0)].


Definition found_200 : Api.Response :=
{| Api.status := 200; Api.body_of := Api.parsed session_abc_json |}.

(** A browser in which Python code raises the error given, having
    written nothing to stderr. *)
Definition raising (message : string) : Browser :=
{| run_javascript := fun _ => None;
   run_python := fun _ => Some (py_raised message EmptyString);
   elapsed_ms := 3 |}.

End Inputs.

(** * Properties *)

(** ** The executor *)
Section ExecutorFacts.
Import Executor.

Lemma supportsExecution_true_iff (l : ProgrammingLanguage) :
  supportsExecution l = true <-> l = python \/ l = javascript \/ l = typescript.
Proof.
  unfold supportsExecution. rewrite bool_decide_eq_true.
  rewrite !elem_of_cons, elem_of_nil. tauto.
Qed.

(** Every result [executePython] fulfils with carries a measured time. *)
Lemma executePython_timed (b : Browser) (code : string) (r : ExecuteResult.t) :
  executePython b code = Some (Fulfilled r) ->
  ExecuteResult.execution_time_ms r = Some (elapsed_ms b).
Proof.
  unfold executePython. intros H.
  destruct (run_python b code) as [[m|m e|o e]|]; simplify_eq; reflexivity.
Qed.

(** So does every result of [executeJavaScript]. *)
Lemma executeJavaScript_timed (b : Browser) (code : string) (r : ExecuteResult.t) :
  executeJavaScript b code = Some (Fulfilled r) ->
  ExecuteResult.execution_time_ms r = Some (elapsed_ms b).
Proof.
  unfold executeJavaScript. intros H.
  destruct (run_javascript b code) as [[cs [|[|n m]]]|]; simplify_eq/=; reflexivity.
Qed.

(** C9: [supportsExecution] is true exactly for python, javascript and
    typescript, and [executeCode] fulfils with the object of its default
    branch (no success, empty output, error type runtime_error, a message
    that names the language) exactly when [supportsExecution] is false. *)
Theorem executeCode_unsupported_iff (l : ProgrammingLanguage) :
  (supportsExecution l = true <->
     l = python \/ l = javascript \/ l = typescript) /\
  (forall (b : Browser) (code : string),
     executeCode b code l = Some (Fulfilled (unsupported l)) <->
     supportsExecution l = false) /\
  ExecuteResult.success (unsupported l) = false /\
  ExecuteResult.output (unsupported l) = EmptyString /\
  ExecuteResult.error_type (unsupported l) = Some "runtime_error" /\
  ExecuteResult.error (unsupported l) =
    Some ("Language " +:+ DQ +:+ language_literal l +:+ DQ +:+
          " is not supported for browser execution. Use Python or JavaScript.").
Proof.
  split; [apply supportsExecution_true_iff|].
  split; [|repeat split].
  intros b code. split.
  - intros H. destruct l; try reflexivity; simpl in H.
    + apply executePython_timed in H. discriminate.
    + apply executeJavaScript_timed in H. discriminate.
    + apply executeJavaScript_timed in H. discriminate.
  - intros H. destruct l; try discriminate; reflexivity.
Qed.

(** A run that returns: success, every console line, empty stderr. *)
Lemma executeJavaScript_returned (b : Browser) (code : string) (r : JsRun) :
  run_javascript b code = Some r ->
  completion r = returned ->
  executeJavaScript b code =
    Some (Fulfilled
      (ExecuteResult.mk true (String.concat LF (logs_of (calls r)))
         (Some EmptyString) (Some (elapsed_ms b)) None None)).
Proof. unfold executeJavaScript. intros -> ->. reflexivity. Qed.

(** A run that throws a value other than [null] and [undefined]: no
    success, the console lines so far, and the error type read off the
    name. *)
Lemma executeJavaScript_threw_value (b : Browser) (code : string) (r : JsRun)
    (name message : option string) :
  run_javascript b code = Some r ->
  completion r = threw (thrown_value name message) ->
  exists res,
    executeJavaScript b code = Some (Fulfilled res) /\
    ExecuteResult.success res = false /\
    ExecuteResult.output res = String.concat LF (logs_of (calls r)) /\
    ExecuteResult.error res = message /\
    (ExecuteResult.error_type res = Some "syntax_error" <->
       name = Some "SyntaxError") /\
    (ExecuteResult.error_type res = Some "runtime_error" <->
       name <> Some "SyntaxError").
Proof.
  unfold executeJavaScript. intros -> ->. eexists. split; [reflexivity|].
  simpl. repeat split; try (case_decide; naive_solver).
Qed.

(** C10, at the input [console.log('partial'); throw null]: the promise
    of [executeJavaScript] rejects, and no result carries the line that
    was logged. *)
Theorem executeJavaScript_throw_null_rejects :
  executeJavaScript Inputs.throws_null "console.log('partial'); throw null" =
    Some (Rejected (TypeError "Cannot read properties of null")) /\
  forall res : ExecuteResult.t,
    executeJavaScript Inputs.throws_null "console.log('partial'); throw null" <>
      Some (Fulfilled res).
Proof. split; [reflexivity|]. intros res. discriminate. Qed.

End ExecutorFacts.

(** ** The API client *)
Section ApiFacts.
Import Json Api.

(** What [request] passes to [fetch]. *)
Lemma request_fetched (e : Env) (endpoint : string) (options : RequestInit) :
  fetched (request e endpoint options) =
    [(API_BASE e +:+ endpoint, init_of options)].
Proof. reflexivity. Qed.



(** C8 as the claim has it fails for a 404 whose JSON body has no
    [detail]: the error thrown carries neither a detail the server
    supplied nor 'Unknown error'. *)
Lemma request_bare_404_not_as_claimed :
  ~ exists message,
      settled (request (Inputs.answering (responded Inputs.bare_404))
                 "/sessions/abc" no_options)
        = Rejected (ApiError 404 message) /\
      (get (JObj []) "detail" = read_value (Some (JStr message)) \/
       message = "Unknown error").
Proof.
  intros (message & H & [Hd | Hm]).
  - discriminate Hd.
  - subst message. vm_compute in H. discriminate H.
Qed.

(** C8, amended: for a response that is not ok and whose body is not the
    JSON value null, [request] throws an [ApiError] with the status of the
    response; its message is the detail of the body when the body is JSON
    with a truthy detail, 'Request failed' when the body is JSON with no
    detail or a falsy one, and 'Unknown error' when the body is not JSON.
    No response that is not ok makes the promise fulfil, and a rejection
    of [fetch] itself is passed on as it is, never as an [ApiError]. *)
Theorem request_failure (e : Env) (endpoint : string) (options : RequestInit) :
  (forall reason,
     fetch e (API_BASE e +:+ endpoint) (init_of options)
       = fetch_rejected reason ->
     settled (request e endpoint options) = Rejected (FetchFailure reason)) /\
  (forall r,
     fetch e (API_BASE e +:+ endpoint) (init_of options) = responded r ->
     ok r = false ->
     (forall v, settled (request e endpoint options) <> Fulfilled v) /\
     (body_of r <> parsed JNull ->
      exists message,
        settled (request e endpoint options)
          = Rejected (ApiError (status r) message)) /\
     (body_of r = not_json ->
      settled (request e endpoint options)
        = Rejected (ApiError (status r) "Unknown error")) /\
     (forall j d,
        body_of r = parsed j -> get j "detail" = read_value (Some d) ->
        truthy (Some d) = true ->
        settled (request e endpoint options)
          = Rejected (ApiError (status r) (to_string d))) /\
     (forall j d,
        body_of r = parsed j -> get j "detail" = read_value d ->
        truthy d = false ->
        settled (request e endpoint options)
          = Rejected (ApiError (status r) "Request failed"))).
Proof.
  unfold request. cbn [settled]. split.
  { intros reason ->. reflexivity. }
  intros r -> Hok. rewrite Hok. simpl.
  split; [|split; [|split; [|split]]].
  - intros v. destruct (body_of r) as [|j]; simpl; [discriminate|].
    destruct (get j "detail") as [|[d|]]; discriminate.
  - intros Hb. destruct (body_of r) as [|j]; [eexists; reflexivity|].
    destruct j; try (eexists; reflexivity). congruence.
  - intros ->. reflexivity.
  - intros j d -> Hd Ht. rewrite Hd. simpl in *. rewrite Ht. reflexivity.
  - intros j d -> Hd Ht. rewrite Hd. destruct d; [|reflexivity].
    simpl in *. rewrite Ht. reflexivity.
Qed.

(** The amended C8 at the 404 of the session service. *)
Lemma request_failure_witness :
  settled (request (Inputs.answering (responded Inputs.not_found_404))
             "/sessions/abc" no_options)
    = Rejected (ApiError 404 "Session not found").
Proof.
  pose proof (request_failure
                (Inputs.answering (responded Inputs.not_found_404))
                "/sessions/abc" no_options) as [_ H].
  destruct (H Inputs.not_found_404 eq_refl eq_refl) as (_ & _ & _ & Hd & _).
  exact (Hd _ (JStr "Session not found") eq_refl eq_refl eq_refl).
Defined.

End ApiFacts.

(** ** The hook's callbacks *)
Section HookFacts.
Import UseYjs.

(** The error state after the callback of 'connection-close'. *)
Lemma on_connection_close_error (h : Hook) (code : Z) :
  error (set_states h (on_connection_close code)) =
    if decide (code = 4004) then Some "Session not found" else error h.
Proof. unfold on_connection_close. case_decide; reflexivity. Qed.

(** C2: the callback of 'connection-close' calls [setError] exactly when
    the close code is 4004, and then with 'Session not found': after a
    close event the error state is 'Session not found' for code 4004 and
    what it was for every other code.  When the lookup of the session id
    found in the URL fails, whatever the failure, the effect run on mount
    replaces the address by the bare path, which has no session
    parameter, and no session id is set. *)
Theorem session_not_found (code : Z) (h : Hook) (p : WebsocketProvider)
    (initialCode : string) (e : Api.Env) (st : App.State)
    (urlSessionId : string) :
  providerRef h = Some p ->
  App.get_param (App.search (App.location st)) "session" = Some urlSessionId ->
  urlSessionId <> EmptyString ->
  (forall v, Api.settled (Api.getSession e urlSessionId) <> Fulfilled v) ->
  ((exists err, setError err ∈ on_connection_close code) <-> code = 4004) /\
  (forall err, setError err ∈ on_connection_close code ->
     err = Some "Session not found") /\
  error (dispatch initialCode h (connection_close code)) =
    (if decide (code = 4004) then Some "Session not found" else error h) /\
  isConnected (dispatch initialCode h (connection_close code)) = false /\
  exists st',
    App.on_mount e st = Some (st', Api.fetched (Api.getSession e urlSessionId)) /\
    App.search (App.location st') = [] /\
    App.get_param (App.search (App.location st')) "session" = None /\
    App.pathname (App.location st') = App.pathname (App.location st) /\
    App.sessionId st' = App.sessionId st.
Proof.
  intros Hp Hq Hne Hfail. split; [|split; [|split; [|split]]].
  - unfold on_connection_close. case_decide as Hc.
    + split; [done|]. intros _. eexists. apply elem_of_app. left. apply list_elem_of_here.
    + split; [|done]. intros [err Hin]. apply elem_of_app in Hin as [Hin|Hin].
      * by apply elem_of_nil in Hin.
      * apply list_elem_of_singleton in Hin. discriminate.
  - intros err. unfold on_connection_close. case_decide; intros Hin;
      apply elem_of_app in Hin as [Hin|Hin];
      try (apply list_elem_of_singleton in Hin; by simplify_eq);
      by apply elem_of_nil in Hin.
  - unfold dispatch. rewrite Hp. apply on_connection_close_error.
  - unfold dispatch. rewrite Hp. unfold on_connection_close.
    case_decide; reflexivity.
  - unfold App.on_mount. rewrite Hq. rewrite decide_False by done.
    destruct (Api.settled (Api.getSession e urlSessionId)) as [v|f] eqn:Hs.
    + by destruct (Hfail v).
    + eexists. split; [reflexivity|]. repeat split.
Qed.


(** C2 at the close code 4004 and the address of the end to end test. *)
Lemma session_not_found_witness :
  error (dispatch EmptyString Inputs.mounted (connection_close 4004))
    = Some "Session not found" /\
  exists st',
    App.on_mount (Inputs.answering (Api.responded Inputs.not_found_404))
      (App.initial Inputs.stale_address)
    = Some (st',
            Api.fetched
              (Api.getSession
                 (Inputs.answering (Api.responded Inputs.not_found_404))
                 "nonexistent123")) /\
    App.search (App.location st') = [].
Proof.
  destruct (session_not_found 4004 Inputs.mounted
              {| serverUrl := "ws://localhost:5173/ws"; roomname := "abc";
                 states := {[7%N := Inputs.some_user]} |}
              EmptyString
              (Inputs.answering (Api.responded Inputs.not_found_404))
              (App.initial Inputs.stale_address) "nonexistent123")
    as (_ & _ & He & _ & st' & Hm & Hs & _).
  - reflexivity.
  - reflexivity.
  - discriminate.
  - intros v. discriminate.
  - split; [exact He|]. exists st'. split; [exact Hm|exact Hs].
Defined.

(** In every state the hook can be in, the count it reports is the size
    of the awareness map of the live provider, and 0 without one. *)
Lemma participantsCount_invariant (steps : list Lifecycle.Step) :
  participantsCount (Lifecycle.run steps)
    = Lifecycle.live_count (Lifecycle.run steps).
Proof.
  unfold Lifecycle.run.
  induction steps as [|s steps IH] using rev_ind; [reflexivity|].
  rewrite foldl_app. simpl.
  set (h := foldl Lifecycle.step initial steps) in *.
  unfold Lifecycle.live_count in *.
  destruct s as [w c ls sid ic|w c ls sid ic| |ic e|ed]; simpl.
  - unfold effect. destruct sid as [sid|]; [|reflexivity].
    destruct (no_session (Some sid)); [reflexivity|].
    case_decide; [exact IH|reflexivity].
  - unfold UseYjs_part_002.effect. destruct sid as [sid|]; [|reflexivity].
    destruct (no_session (Some sid)); reflexivity.
  - reflexivity.
  - unfold dispatch. destruct (providerRef h) as [p|] eqn:Hp; [|by rewrite Hp].
    destruct e as [b|st|now| |code]; simpl.
    + unfold on_synced. destruct (docRef h); [|by rewrite Hp].
      destruct (_ && _); simpl; by rewrite Hp.
    + by rewrite Hp.
    + reflexivity.
    + by rewrite Hp.
    + unfold on_connection_close. case_decide; simpl; by rewrite Hp.
  - unfold bindEditor. simpl. destruct (docRef h), (providerRef h); simpl; exact IH.
Qed.

(** C3: whatever has happened to the hook, the count it reports is the
    size of the awareness map at that moment; the callback of an awareness
    change sets it to the size the map has just taken; and [cleanup], which
    the effect runs when the session id becomes null and React runs on
    teardown, destroys the provider and resets the count to 0. *)
Theorem participantsCount_live (steps : list Lifecycle.Step) :
  let h := Lifecycle.run steps in
  participantsCount h = Lifecycle.live_count h /\
  (forall initialCode now,
     providerRef h <> None ->
     participantsCount (dispatch initialCode h (awareness_change now))
       = size now /\
     Lifecycle.live_count (dispatch initialCode h (awareness_change now))
       = size now) /\
  (participantsCount (cleanup h) = 0%nat /\ providerRef (cleanup h) = None) /\
  (participantsCount (effect_cleanup h) = 0%nat /\
   providerRef (effect_cleanup h) = None) /\
  (forall w clientID localState initialCode,
     participantsCount (effect w clientID localState None initialCode h)
       = 0%nat /\
     providerRef (effect w clientID localState None initialCode h) = None).
Proof.
  intros h. split; [apply participantsCount_invariant|].
  split; [|repeat split].
  intros ic now Hp. unfold dispatch, Lifecycle.live_count.
  destruct (providerRef h); [|done]. split; reflexivity.
Qed.

(** C3 for a hook that has joined a session and then sees two more
    participants: the count is 3, and 0 once the session is left. *)
Lemma participantsCount_live_witness :
  participantsCount
    (dispatch EmptyString
       (Lifecycle.run
          [Lifecycle.run_effect Inputs.dev_window 7 Inputs.some_user
             (Some "abc") EmptyString])
       (awareness_change
          (list_to_map [(7%N, Inputs.some_user); (8%N, Inputs.some_user);
                        (9%N, Inputs.some_user)])))
    = 3%nat /\
  participantsCount
    (effect Inputs.dev_window 7 Inputs.some_user None EmptyString
       (Lifecycle.run
          [Lifecycle.run_effect Inputs.dev_window 7 Inputs.some_user
             (Some "abc") EmptyString]))
    = 0%nat.
Proof.
  destruct (participantsCount_live
              [Lifecycle.run_effect Inputs.dev_window 7 Inputs.some_user
                 (Some "abc") EmptyString]) as (_ & Hc & _ & _ & Hn).
  split.
  - destruct (Hc EmptyString
                (list_to_map [(7%N, Inputs.some_user); (8%N, Inputs.some_user);
                              (9%N, Inputs.some_user)])) as [-> _];
      [discriminate|reflexivity].
  - apply Hn.
Defined.

End HookFacts.

(** ** Session records *)
Section SessionFacts.
Import Json.







(** The JSON text of the only body [handleLanguageChange] sends. *)
Lemma stringify_language_only (l : ProgrammingLanguage) :
  stringify (JObj [("language", JStr (language_literal l))]) =
  "{" +:+ DQ +:+ "language" +:+ DQ +:+ ":" +:+ DQ +:+ language_literal l
  +:+ DQ +:+ "}".
Proof. destruct l; reflexivity. Qed.

(** C5: [update] of the store changes the language and the title it is
    given and nothing else: the document of every session, and the id,
    the creation time and the status of the updated one, are what they
    were, and an unknown id changes nothing.  The language change of the
    client, in a session, makes one PATCH of the session whose body is
    the JSON object with the single property language; it leaves the code
    of the editor alone; outside a session it makes no request. *)
Theorem update_is_metadata_only :
  (forall store sid c store' r',
     Relay.update_session store sid c = Some (store', r') ->
     (forall s, Relay.record_document <$> store' !! s
                = Relay.record_document <$> store !! s) /\
     (forall s, s <> sid -> store' !! s = store !! s) /\
     exists r,
       store !! sid = Some r /\ store' !! sid = Some r' /\
       Relay.id r' = Relay.id r /\
       Relay.created_at r' = Relay.created_at r /\
       Relay.status r' = Relay.status r /\
       Relay.record_document r' = Relay.record_document r /\
       Relay.language r'
         = default (Relay.language r) (Relay.new_language c) /\
       Relay.title r'
         = match Relay.new_title c with
           | Some t => Some t
           | None => Relay.title r
           end) /\
  (forall store sid c,
     store !! sid = None -> Relay.update_session store sid c = None) /\
  (forall e l st sid,
     App.sessionId st = Some sid -> sid <> EmptyString ->
     exists init,
       (App.handleLanguageChange e l st).2
         = [(Api.API_BASE e +:+ "/sessions/" +:+ sid, init)] /\
       Api.method_of init = "PATCH" /\
       Api.body init
         = Some (stringify (JObj [("language", JStr (language_literal l))])) /\
       Api.body init
         = Some ("{" +:+ DQ +:+ "language" +:+ DQ +:+ ":" +:+ DQ +:+
                 language_literal l +:+ DQ +:+ "}") /\
       App.code (App.handleLanguageChange e l st).1 = App.code st /\
       App.language (App.handleLanguageChange e l st).1 = l) /\
  (forall e l st,
     UseYjs.no_session (App.sessionId st) = true ->
     (App.handleLanguageChange e l st).2 = []).
Proof.
  split; [|split; [|split]].
  - intros store sid c store' r' H. unfold Relay.update_session in H.
    destruct (store !! sid) as [r|] eqn:Hr; [|discriminate].
    injection H as <- <-. split; [|split].
    + intros s. destruct (decide (s = sid)) as [->|Hne].
      * by rewrite lookup_insert_eq, Hr.
      * by rewrite lookup_insert_ne.
    + intros s Hne. by rewrite lookup_insert_ne.
    + exists r. rewrite lookup_insert_eq. repeat split.
  - intros store sid c H. unfold Relay.update_session. by rewrite H.
  - intros e l st sid Hs Hne. unfold App.handleLanguageChange.
    rewrite Hs. unfold UseYjs.no_session.
    rewrite bool_decide_eq_false_2 by done.
    eexists. split; [reflexivity|]. split; [reflexivity|].
    split; [reflexivity|]. split; [|split; reflexivity].
    change (Some (stringify (JObj [("language", JStr (language_literal l))]))
            = Some ("{" +:+ DQ +:+ "language" +:+ DQ +:+ ":" +:+ DQ +:+
                    language_literal l +:+ DQ +:+ "}")).
    f_equal. apply stringify_language_only.
  - intros e l st H. unfold App.handleLanguageChange.
    destruct (App.sessionId st) as [sid|]; [|reflexivity].
    by rewrite H.
Qed.

(** C5 for a client in the session abc that switches to Go. *)
Lemma update_is_metadata_only_witness :
  exists init,
    (App.handleLanguageChange (Inputs.answering (Api.fetch_rejected "offline"))
       go (App.session_loaded
             (Session.mk "abc" "/?session=abc" "/ws/abc" python None
                "2024-01-01T00:00:00Z" active 1)
             (App.initial Inputs.stale_address))).2
      = [("/api/sessions/abc", init)] /\
    Api.method_of init = "PATCH" /\
    Api.body init
      = Some ("{" +:+ DQ +:+ "language" +:+ DQ +:+ ":" +:+ DQ +:+ "go"
              +:+ DQ +:+ "}").
Proof.
  destruct update_is_metadata_only as (_ & _ & H & _).
  destruct (H (Inputs.answering (Api.fetch_rejected "offline")) go
              (App.session_loaded
                 (Session.mk "abc" "/?session=abc" "/ws/abc" python None
                    "2024-01-01T00:00:00Z" active 1)
                 (App.initial Inputs.stale_address))
              "abc" eq_refl) as (init & Hc & Hm & _ & Hb & _).
  - discriminate.
  - exists init. split; [exact Hc|]. split; [exact Hm|exact Hb].
Defined.

End SessionFacts.

(** ** The document model *)
Section DocumentFacts.

Lemma string_length_append (a b : string) :
  String.length (a +:+ b) = (String.length a + String.length b)%nat.
Proof. induction a as [|c a IH]; simpl; [done|]. by rewrite IH. Qed.

Lemma join_text_length (l : list string) :
  String.length (Y.join_text l) = sum_list_with String.length l.
Proof.
  induction l as [|a l IH]; simpl; [done|].
  by rewrite string_length_append, IH.
Qed.

(** The text has the length the document reports. *)
Lemma toString_length (d : Y.Doc) :
  String.length (Y.toString d) = Y.length d.
Proof.
  unfold Y.toString, Y.length. rewrite join_text_length.
  transitivity
    (sum_list_with (fun kv : Y.Id * Y.Item => String.length (Y.content kv.2))
       (merge_sort Y.before (map_to_list (Y.items d)))).
  - generalize (merge_sort Y.before (map_to_list (Y.items d))).
    intros l. induction l as [|a l IH]; [done|].
    rewrite fmap_cons. cbn [sum_list_with]. by rewrite IH.
  - by rewrite merge_sort_Permutation.
Qed.

(** Merging runs the document does not have adds their lengths. *)
Lemma length_applyUpdate_disjoint (d : Y.Doc) (u : Y.Update) :
  Y.items d ##ₘ u ->
  Y.length (Y.applyUpdate d u)
    = (Y.length d
       + sum_list_with (fun kv : Y.Id * Y.Item => String.length (Y.content kv.2))
           (map_to_list u))%nat.
Proof.
  unfold Y.length, Y.applyUpdate. simpl.
  generalize (Y.items d). intros m. induction m as [|i x m Hi IH] using map_ind.
  - intros _. by rewrite (left_id_L ∅ (∪)), map_to_list_empty.
  - intros Hd. apply map_disjoint_insert_l in Hd as [Hu Hd].
    rewrite <- insert_union_l.
    rewrite !map_to_list_insert; [|done|by apply lookup_union_None].
    simpl. rewrite IH by done. lia.
Qed.

(** A state vector is past every run of the document it summarises. *)
Lemma encodeStateVector_covers (d : Y.Doc) (c k : N) (it : Y.Item) :
  Y.items d !! (c, k) = Some it ->
  (k < Y.next_clock (Y.encodeStateVector d) c)%N.
Proof.
  unfold Y.encodeStateVector. revert c k it.
  apply (map_fold_weak_ind
           (fun sv (m : gmap Y.Id Y.Item) =>
              forall c k it, m !! (c, k) = Some it ->
                             (k < Y.next_clock sv c)%N)).
  - intros c k it H. by rewrite lookup_empty in H.
  - intros [c' k'] x m sv Hm IH c k it H. unfold Y.next_clock in *.
    cbn [fst snd].
    destruct (decide ((c', k') = (c, k))) as [Heq|Hne].
    + injection Heq as -> ->. rewrite lookup_insert_eq. simpl. lia.
    + rewrite lookup_insert_ne in H by done. specialize (IH _ _ _ H).
      destruct (decide (c' = c)) as [->|Hc].
      * rewrite lookup_insert_eq. simpl. lia.
      * by rewrite lookup_insert_ne.
Qed.

(** It says nothing of a client that has no run in the document. *)
Lemma encodeStateVector_fresh (d : Y.Doc) (c : N) :
  (forall k, Y.items d !! (c, k) = None) ->
  Y.encodeStateVector d !! c = None.
Proof.
  unfold Y.encodeStateVector. revert c.
  apply (map_fold_weak_ind
           (fun (sv : Y.StateVector) (m : gmap Y.Id Y.Item) =>
              forall c, (forall k, m !! (c, k) = None) -> sv !! c = None)).
  - intros c _. apply lookup_empty.
  - intros [c' k'] x m sv Hm IH c H. cbn [fst snd].
    destruct (decide (c' = c)) as [->|Hc].
    + specialize (H k'). by rewrite lookup_insert_eq in H.
    + rewrite lookup_insert_ne by done. apply IH. intros k.
      specialize (H k). rewrite lookup_insert_ne in H; [done|congruence].
Qed.

(** No run of a delta computed against a state vector is one the holder
    of that vector has: nothing is delivered twice. *)
Lemma encodeStateAsUpdate_disjoint (mine theirs : Y.Doc) :
  Y.items mine ##ₘ Y.encodeStateAsUpdate theirs (Y.encodeStateVector mine).
Proof.
  apply map_disjoint_spec. intros [c k] it it' Hm Ht.
  unfold Y.encodeStateAsUpdate in Ht.
  apply map_lookup_filter_Some in Ht as [_ Hle]. simpl in Hle.
  pose proof (encodeStateVector_covers _ _ _ _ Hm). lia.
Qed.

(** Against the state vector of a holder who has seen nothing of the
    document's clients, the delta is the whole document. *)
Lemma encodeStateAsUpdate_unseen (d : Y.Doc) (sv : Y.StateVector) :
  (forall c k it, Y.items d !! (c, k) = Some it -> sv !! c = None) ->
  Y.encodeStateAsUpdate d sv = Y.items d.
Proof.
  intros H. unfold Y.encodeStateAsUpdate. apply map_filter_id.
  intros [c k] it Hi. simpl. unfold Y.next_clock.
  rewrite (H _ _ _ Hi). simpl. lia.
Qed.

Lemma encodeStateVector_new (c : N) : Y.encodeStateVector (Y.new_doc c) = ∅.
Proof. reflexivity. Qed.

End DocumentFacts.

(** ** The relay *)
Section RelayFacts.
Import Relay.







End RelayFacts.

(** ** Joining a session *)
Section JoinFacts.
Import UseYjs.

(** The text is read off the runs alone. *)
Lemma toString_items (d d' : Y.Doc) :
  Y.items d = Y.items d' -> Y.toString d = Y.toString d'.
Proof. unfold Y.toString. by intros ->. Qed.

Lemma length_items (d d' : Y.Doc) :
  Y.items d = Y.items d' -> Y.length d = Y.length d'.
Proof. unfold Y.length. by intros ->. Qed.

(** The hub answers a state vector of a connection it knows with the
    delta that connection is missing, and merges a delta it is sent. *)
Lemma on_frame_sync_step_1 (now : Z) (h : Relay.Hub) (x : N)
    (c : Relay.Connection) (sv : Y.StateVector) :
  Relay.connections h !! x = Some c ->
  Relay.on_frame now h x (Relay.sync_step_1 sv) =
    ({| Relay.session := Relay.session h;
        Relay.document := Relay.document h;
        Relay.connections := Relay.connections h;
        Relay.last_activity := now |},
     [(x, Relay.sync_step_2 (Y.encodeStateAsUpdate (Relay.document h) sv))]).
Proof. intros H. unfold Relay.on_frame. by rewrite H. Qed.

Lemma on_frame_delta_document (now : Z) (h : Relay.Hub) (x : N)
    (c : Relay.Connection) (delta : Y.Update) :
  Relay.connections h !! x = Some c ->
  Relay.document (Relay.on_frame now h x (Relay.sync_step_2 delta)).1
    = Y.applyUpdate (Relay.document h) delta /\
  Relay.document (Relay.on_frame now h x (Relay.update delta)).1
    = Y.applyUpdate (Relay.document h) delta.
Proof. intros H. unfold Relay.on_frame. by rewrite H. Qed.

(** The two documents after the handshake: each side has merged what it
    was missing of the other. *)
Lemma connect_documents (now : Z) (h : Relay.Hub) (doc : Y.Doc) :
  (Provider.connect now h doc).2 =
    Y.applyUpdate doc
      (Y.encodeStateAsUpdate (Relay.document h) (Y.encodeStateVector doc)) /\
  Relay.document (Provider.connect now h doc).1 =
    Y.applyUpdate (Relay.document h)
      (Y.encodeStateAsUpdate doc (Y.encodeStateVector (Relay.document h))).
Proof.
  unfold Provider.connect, Relay.accept.
  set (c0 := {| Relay.session_id := Relay.session h;
                Relay.client_id := Y.clientID doc;
                Relay.awareness_state := None;
                Relay.state := Relay.syncing |}).
  set (h1 := Relay.with_connection h c0).
  assert (Relay.connections h1 !! Y.clientID doc = Some c0) as H1
    by apply lookup_insert_eq.
  cbn zeta iota beta.
  rewrite (on_frame_sync_step_1 now h1 _ c0 _ H1).
  set (h2 := {| Relay.session := Relay.session h1;
                Relay.document := Relay.document h1;
                Relay.connections := Relay.connections h1;
                Relay.last_activity := now |}).
  pose proof (on_frame_delta_document now h2 (Y.clientID doc) c0
                (Y.encodeStateAsUpdate doc (Relay.state_vector h1)) H1)
    as [H2 _].
  destruct (Relay.on_frame now h2 (Y.clientID doc) _) as [h3 out].
  cbn [fst snd] in *. split; [|exact H2].
  unfold Provider.receive. cbn [foldl fst snd].
  by rewrite decide_True.
Qed.

(** The handshake of a client whose document is empty: the delta it is
    sent has no run it already has, and applied to its empty document
    gives the runs, and so the text, of the relay's document, which the
    handshake leaves as it was. *)
Lemma connect_bootstraps (now : Z) (h : Relay.Hub) (clientID : N) :
  Y.items (Provider.connect now h (Y.new_doc clientID)).2
    = Y.items (Relay.document h) /\
  Y.toString (Provider.connect now h (Y.new_doc clientID)).2
    = Y.toString (Relay.document h) /\
  Y.items (Relay.document (Provider.connect now h (Y.new_doc clientID)).1)
    = Y.items (Relay.document h).
Proof.
  destruct (connect_documents now h (Y.new_doc clientID)) as [-> ->].
  assert (Y.items
            (Y.applyUpdate (Y.new_doc clientID)
               (Y.encodeStateAsUpdate (Relay.document h)
                  (Y.encodeStateVector (Y.new_doc clientID))))
          = Y.items (Relay.document h)) as Hi.
  { rewrite encodeStateVector_new. cbn [Y.applyUpdate Y.items Y.new_doc].
    rewrite (left_id_L ∅ (∪)). apply encodeStateAsUpdate_unseen.
    intros c k it _. apply lookup_empty. }
  split; [exact Hi|]. split; [by apply toString_items|].
  cbn [Y.applyUpdate Y.items]. unfold Y.encodeStateAsUpdate.
  cbn [Y.new_doc Y.items]. rewrite map_filter_empty. apply (right_id_L ∅ (∪)).
Qed.

(** With hooks/useYjs.ts, a client that joins a session whose document
    has text ends with exactly that text, whatever initial code [App]
    handed to the hook, and the relay's document is not changed by the
    join. *)
Lemma join_keeps_session_text (now : Z) (w : Window) (clientID : N)
    (localState : Json.t) (sid initialCode : string) (hub : Relay.Hub) :
  sid <> EmptyString ->
  Y.length (Relay.document hub) <> 0%nat ->
  Join.text_of (Join.join now w clientID localState sid initialCode hub).2
    = Y.toString (Relay.document hub) /\
  Y.items
    (Relay.document (Join.join now w clientID localState sid initialCode hub).1)
    = Y.items (Relay.document hub).
Proof.
  intros Hsid Hlen. unfold Join.join, effect, no_session.
  rewrite bool_decide_eq_false_2 by done.
  rewrite decide_False by done.
  cbn [docRef with_refs set_states foldl set_state on_awareness_change].
  destruct (connect_bootstraps now hub clientID) as (Hi & Ht & Hh).
  destruct (Provider.connect now hub (Y.new_doc clientID)) as [hub1 doc1].
  cbn [fst snd] in *.
  unfold dispatch.
  cbn [providerRef with_refs set_states foldl set_state on_awareness_change].
  unfold on_synced.
  cbn [docRef initialCodeInserted with_refs set_states foldl set_state
       on_awareness_change].
  rewrite (bool_decide_eq_false_2 (Y.length doc1 = 0%nat))
    by (by rewrite (length_items _ _ Hi)).
  cbn [negb andb docRef initialCodeInserted with_refs Join.text_of fst snd].
  done.
Qed.

(** With the other copy of the hook, the client's document holds the
    initial code before the provider connects; after the handshake the
    client and the relay both hold the text of the session and the
    initial code of the joiner. *)
Lemma join_part_002_adds_initial_code (now : Z) (w : Window) (clientID : N)
    (localState : Json.t) (sid initialCode : string) (hub : Relay.Hub) :
  sid <> EmptyString ->
  initialCode <> EmptyString ->
  (forall k, Y.items (Relay.document hub) !! (clientID, k) = None) ->
  String.length
    (Join.text_of
       (Join.join_part_002 now w clientID localState sid initialCode hub).2)
    = (String.length (Y.toString (Relay.document hub))
       + String.length initialCode)%nat /\
  String.length
    (Y.toString
       (Relay.document
          (Join.join_part_002 now w clientID localState sid initialCode hub).1))
    = (String.length (Y.toString (Relay.document hub))
       + String.length initialCode)%nat /\
  Join.text_of
    (Join.join_part_002 now w clientID localState sid initialCode hub).2
    <> Y.toString (Relay.document hub).
Proof.
  intros Hsid Hic Hfresh.
  set (d0 := Y.insert0 (Y.new_doc clientID) initialCode).
  assert (Y.items d0
          = {[ (clientID, 0%N) := {| Y.position := 0; Y.content := initialCode |} ]})
    as Hd0.
  { unfold d0, Y.insert0. rewrite decide_False by done. reflexivity. }
  assert (Y.length d0 = String.length initialCode) as Hl0.
  { unfold Y.length. rewrite Hd0, map_to_list_singleton. simpl. lia. }
  assert (forall c k it,
            Y.items (Relay.document hub) !! (c, k) = Some it -> c <> clientID)
    as Hother.
  { intros c k it Hi ->. by rewrite Hfresh in Hi. }
  assert (Y.encodeStateAsUpdate (Relay.document hub) (Y.encodeStateVector d0)
          = Y.items (Relay.document hub)) as Hdown.
  { apply encodeStateAsUpdate_unseen. intros c k it Hi.
    apply encodeStateVector_fresh. intros k'. rewrite Hd0.
    apply lookup_singleton_ne. intros [=Hc _]. by apply (Hother _ _ _ Hi). }
  assert (Y.encodeStateAsUpdate d0 (Y.encodeStateVector (Relay.document hub))
          = Y.items d0) as Hup.
  { apply encodeStateAsUpdate_unseen. intros c k it Hi. rewrite Hd0 in Hi.
    apply lookup_singleton_Some in Hi as [[= <- <-] _].
    by apply encodeStateVector_fresh. }
  assert (Y.items d0 ##ₘ Y.items (Relay.document hub)) as Hdisj.
  { rewrite <- Hdown. apply encodeStateAsUpdate_disjoint. }
  assert (Join.join_part_002 now w clientID localState sid initialCode hub
          = ((Provider.connect now hub d0).1,
             with_refs
               (set_states
                  (with_refs
                     (set_states initial [setIsLoading true; setError None])
                     (Some d0)
                     (Some {| serverUrl := UseYjs_part_002.wsUrl w sid;
                              roomname := sid;
                              states := {[clientID := localState]} |})
                     None None false)
                  [setParticipantsCount
                     (size ({[clientID := localState]} : gmap N Json.t))])
               (Some (Provider.connect now hub d0).2)
               (Some {| serverUrl := UseYjs_part_002.wsUrl w sid;
                        roomname := sid;
                        states := {[clientID := localState]} |})
               None None false)) as ->.
  { unfold Join.join_part_002, UseYjs_part_002.effect, no_session.
    rewrite bool_decide_eq_false_2 by done.
    rewrite (bool_decide_eq_false_2 (initialCode = EmptyString)) by done.
    rewrite (bool_decide_eq_true_2 (Y.length (Y.new_doc clientID) = 0%nat))
      by reflexivity.
    cbn [negb andb]. fold d0.
    cbn [docRef with_refs set_states foldl set_state on_awareness_change].
    by destruct (Provider.connect now hub d0). }
  cbn [fst snd Join.text_of docRef with_refs].
  destruct (connect_documents now hub d0) as [-> ->].
  rewrite Hdown, Hup. rewrite !toString_length.
  assert (Y.length (Y.applyUpdate d0 (Y.items (Relay.document hub)))
          = (Y.length (Relay.document hub) + String.length initialCode)%nat)
    as Hc.
  { rewrite length_applyUpdate_disjoint by done. fold (Y.length (Relay.document hub)).
    lia. }
  assert (Y.length (Y.applyUpdate (Relay.document hub) (Y.items d0))
          = (Y.length (Relay.document hub) + String.length initialCode)%nat)
    as Hs.
  { rewrite length_applyUpdate_disjoint by done.
    fold (Y.length d0). lia. }
  split; [exact Hc|]. split; [exact Hs|].
  intros Heq. apply (f_equal String.length) in Heq.
  rewrite !toString_length, Hc in Heq.
  destruct initialCode; [done|]. simpl in Heq. lia.
Qed.


(** The same flow with hooks/useYjs.ts: the joiner reads the template
    once, and the relay's document is untouched. *)
Lemma late_join_keeps_text :
  let hub := Inputs.fresh_hub (DEFAULT_CODE python) in
  let options := App.useYjs_options (App.initial Inputs.session_link) in
  let joined :=
    Join.join 9 Inputs.dev_window 7 Inputs.some_user "abc" options.2 hub in
  Join.text_of joined.2 = DEFAULT_CODE python /\
  Y.toString (Relay.document joined.1) = DEFAULT_CODE python.
Proof. vm_compute. split; reflexivity. Qed.

End JoinFacts.

Set Warnings "-clear-no-such-hyp".

(** ** Running code from the page *)
Section RunFacts.
Import Executor.





End RunFacts.

(** ** The selector and the build *)
Section TableFacts.

(** X4: the selector offers every language exactly once; no two options
    have the same value or the same label; and the value of the option
    picked, which [onChange] passes on as a [ProgrammingLanguage] without
    a check, is the literal of the language at that place, which is also
    the id Monaco is given for it. *)
Theorem selector_options :
  NoDup LanguageSelector.LANGUAGES /\
  (forall l : ProgrammingLanguage, l ∈ LanguageSelector.LANGUAGES) /\
  NoDup (LanguageSelector.value <$> LanguageSelector.options) /\
  NoDup (LanguageSelector.label <$> LanguageSelector.options) /\
  (forall place v,
     LanguageSelector.picked place = Some v ->
     exists l,
       LanguageSelector.LANGUAGES !! place = Some l /\
       language_of_literal v = Some l /\
       LANGUAGE_MAP l = v).
Proof.
  split; [apply (bool_decide_unpack _); by vm_compute|].
  split; [intros []; apply (bool_decide_unpack _); by vm_compute|].
  split; [apply (bool_decide_unpack _); by vm_compute|].
  split; [apply (bool_decide_unpack _); by vm_compute|].
  intros place v. unfold LanguageSelector.picked.
  do 10 (destruct place as [|place];
         [intros [= <-]; eexists; repeat split; reflexivity|]).
  discriminate.
Qed.

Lemma replace_unfold (pattern replacement s : string) :
  ViteConfig.replace pattern replacement s =
  if String.prefix pattern s
  then replacement +:+ ViteConfig.skip (String.length pattern) s
  else match s with
       | EmptyString => EmptyString
       | String c r => String c (ViteConfig.replace pattern replacement r)
       end.
Proof. by destruct s. Qed.

(** A string in which the pattern does not occur is left as it is. *)
Lemma replace_absent (pattern replacement s : string) :
  ViteConfig.includes pattern s = false ->
  ViteConfig.replace pattern replacement s = s.
Proof.
  assert (forall t, ViteConfig.includes pattern t =
            String.prefix pattern t
            || match t with
               | EmptyString => false
               | String _ r => ViteConfig.includes pattern r
               end) as Hunfold by (by intros []).
  induction s as [|c s IH]; intros H; rewrite replace_unfold;
    rewrite Hunfold in H; apply orb_false_iff in H as [-> H]; [done|].
  f_equal. by apply IH.
Qed.

(** X5: the websocket target of the development proxy is the backend
    address with its first http replaced by ws and nothing else changed:
    ws for an http address and wss for an https one, whatever follows,
    later occurrences of http included; an address in which http does not
    occur is the websocket target as it stands; with no backend address
    set, or an empty one, the targets are http://localhost:8000 and
    ws://localhost:8000. *)
Theorem proxy_targets (rest : string) :
  ViteConfig.proxy (Some ("http://" +:+ rest))
    = [("/api", "http://" +:+ rest); ("/ws", "ws://" +:+ rest)] /\
  ViteConfig.proxy (Some ("https://" +:+ rest))
    = [("/api", "https://" +:+ rest); ("/ws", "wss://" +:+ rest)] /\
  (rest <> EmptyString ->
   ViteConfig.includes "http" rest = false ->
   ViteConfig.proxy (Some rest) = [("/api", rest); ("/ws", rest)]) /\
  ViteConfig.proxy None
    = [("/api", "http://localhost:8000"); ("/ws", "ws://localhost:8000")] /\
  ViteConfig.proxy (Some EmptyString) = ViteConfig.proxy None.
Proof.
  unfold ViteConfig.proxy, ViteConfig.backendWsUrl, ViteConfig.backendUrl.
  split; [|split; [|split; [|split]]]; try reflexivity.
  intros Hne Habsent. rewrite decide_False by done.
  by rewrite replace_absent.
Qed.

(** X5 for the address of a backend named without a scheme. *)
Lemma proxy_targets_witness :
  ViteConfig.proxy (Some "backend:8000")
    = [("/api", "backend:8000"); ("/ws", "backend:8000")].
Proof.
  destruct (proxy_targets "backend:8000") as (_ & _ & H & _).
  apply H; [discriminate|reflexivity].
Defined.

End TableFacts.

(** ** The address of a session *)
Section AddressFacts.










End AddressFacts.

(** ** Creating and opening a session *)
Section MountFacts.






(** X8: on mount the page makes no request when its address has no
    session parameter, or an empty one, and stays as it was.  With a
    session parameter it makes one GET of that session; when the server
    answers with a session, the session id becomes the id of the answer,
    the language the language of the answer, the address stays, and the
    code stays the Python template: that template is the initial code the
    hook is given, whatever the language of the session. *)
Theorem on_mount_loads_session (e : Api.Env) (loc : App.Location) :
  (UseYjs.no_session (App.get_param (App.search loc) "session") = true ->
   App.on_mount e (App.initial loc) = Some (App.initial loc, [])) /\
  (forall sid j sess,
     App.get_param (App.search loc) "session" = Some sid ->
     sid <> EmptyString ->
     Api.settled (Api.getSession e sid) = Fulfilled j ->
     SessionJson.of_json j = Some sess ->
     exists st',
       App.on_mount e (App.initial loc)
         = Some (st',
                 [(Api.API_BASE e +:+ "/sessions/" +:+ sid,
                   {| Api.method := None;
                      Api.headers :=
                        Some [("Content-Type", "application/json")];
                      Api.body := None |})]) /\
       Api.method_of
         {| Api.method := None;
            Api.headers := Some [("Content-Type", "application/json")];
            Api.body := None |} = "GET" /\
       App.sessionId st' = Some (Session.id sess) /\
       App.session st' = Some sess /\
       App.language st' = Session.language sess /\
       App.location st' = loc /\
       App.useYjs_options st'
         = (Some (Session.id sess), DEFAULT_CODE python)).
Proof.
  split.
  - intros H. unfold App.on_mount. cbn [App.location App.initial].
    destruct (App.get_param (App.search loc) "session") as [sid|]; [|done].
    apply bool_decide_eq_true in H. by rewrite decide_True.
  - intros sid j sess Hq Hne Hs Hj. unfold App.on_mount.
    cbn [App.location App.initial]. rewrite Hq. rewrite decide_False by done.
    rewrite Hs. eexists. split.
    + destruct j; try discriminate Hj; rewrite Hj; reflexivity.
    + repeat split.
Qed.

(** X8 for the page opened on the link of the session abc, whose
    language is Go. *)
Lemma on_mount_loads_session_witness :
  exists st',
    App.on_mount (Inputs.answering (Api.responded Inputs.found_200))
      (App.initial Inputs.session_link)
      = Some (st',
              [("/api/sessions/abc",
                {| Api.method := None;
                   Api.headers := Some [("Content-Type", "application/json")];
                   Api.body := None |})]) /\
    App.language st' = go /\
    App.useYjs_options st' = (Some "abc", DEFAULT_CODE python).
Proof.
  destruct (on_mount_loads_session
              (Inputs.answering (Api.responded Inputs.found_200))
              Inputs.session_link) as [_ H].
  destruct (H "abc" Inputs.session_abc_json Inputs.session_abc)
    as (st' & Hm & _ & _ & _ & Hl & _ & Ho);
    [reflexivity|discriminate|reflexivity|reflexivity|].
  exists st'. split; [exact Hm|]. split; [exact Hl|exact Ho].
Defined.

End MountFacts.

(** ** The refs of the hook *)
Section RefFacts.
Import UseYjs.

(** X9: whatever has happened to the hook, with either copy of the
    effect, the document and the provider exist together or not at all,
    and the editor binding exists exactly while a provider is alive and
    an editor has been mounted; it is then the binding of the editor
    mounted last. *)
Theorem binding_follows_editor (steps : list Lifecycle.Step) :
  let h := Lifecycle.run steps in
  (docRef h = None <-> providerRef h = None) /\
  bindingRef h =
    match providerRef h with
    | Some _ => new_MonacoBinding <$> editorRef h
    | None => None
    end.
Proof.
  unfold Lifecycle.run.
  induction steps as [|s steps IH] using rev_ind; [done|].
  rewrite foldl_app. cbn [foldl].
  set (h := foldl Lifecycle.step initial steps) in *.
  cbn zeta in IH. destruct IH as [IHd IHb].
  destruct s as [w c ls sid ic|w c ls sid ic| |ic e|ed];
    cbn [Lifecycle.step].
  - unfold effect. destruct sid as [sid|]; [|done].
    destruct (no_session (Some sid)); [done|].
    case_decide; [done|]. split; [done|].
    cbn. destruct (editorRef h); [done|].
    rewrite IHb. by destruct (providerRef h).
  - unfold UseYjs_part_002.effect. destruct sid as [sid|]; [|done].
    destruct (no_session (Some sid)); [done|]. split; [done|].
    cbn. destruct (editorRef h); [done|].
    rewrite IHb. by destruct (providerRef h).
  - done.
  - unfold dispatch. destruct (providerRef h) as [p|] eqn:Hp;
      [|rewrite Hp; naive_solver].
    destruct e as [b|st|now| |code].
    + unfold on_synced. destruct (docRef h) eqn:Hd;
        [|rewrite Hp, Hd; naive_solver].
      destruct (_ && _); [|rewrite Hp, Hd; naive_solver].
      cbn. rewrite Hp. naive_solver.
    + cbn. rewrite Hp. naive_solver.
    + cbn. naive_solver.
    + cbn. rewrite Hp. naive_solver.
    + unfold on_connection_close.
      case_decide; cbn; rewrite Hp; naive_solver.
  - unfold bindEditor. cbn.
    destruct (docRef h) eqn:Hd, (providerRef h) eqn:Hp; cbn;
      rewrite ?Hd, ?Hp; naive_solver.
Qed.

(** X10: an error the hook reports stays until the effect initialises
    a session.  No event of the provider, a successful connection
    included, no mount of an editor, no cleanup and no effect run without
    a session or stopped by its guard clears it; an effect that
    initialises clears it. *)
Theorem error_cleared_only_by_new_session (h : Hook) (s : Lifecycle.Step) :
  error h <> None ->
  (error (Lifecycle.step h s) = None <->
   exists w clientID localState sid initialCode,
     sid <> EmptyString /\
     ((s = Lifecycle.run_effect w clientID localState (Some sid) initialCode /\
       initializedRef h <> Some sid) \/
      s = Lifecycle.run_effect_part_002 w clientID localState (Some sid)
            initialCode)).
Proof.
  intros He.
  assert (forall h', error h' = error h -> error h' = None -> False) as Hkeep
    by (intros h' -> H; by apply He).
  split.
  - destruct s as [w c ls sid ic|w c ls sid ic| |ic e|ed];
      cbn [Lifecycle.step].
    + unfold effect. destruct sid as [sid|];
        [|intros Hn; by destruct (Hkeep _ eq_refl Hn)].
      unfold no_session. case_bool_decide as Hs;
        [intros Hn; by destruct (Hkeep _ eq_refl Hn)|].
      case_decide; [intros Hn; by destruct (Hkeep _ eq_refl Hn)|].
      intros _. exists w, c, ls, sid, ic. split; [done|]. by left.
    + unfold UseYjs_part_002.effect. destruct sid as [sid|];
        [|intros Hn; by destruct (Hkeep _ eq_refl Hn)].
      unfold no_session. case_bool_decide as Hs;
        [intros Hn; by destruct (Hkeep _ eq_refl Hn)|].
      intros _. exists w, c, ls, sid, ic. split; [done|]. by right.
    + intros Hn; by destruct (Hkeep _ eq_refl Hn).
    + unfold dispatch. destruct (providerRef h) as [p|];
        [|intros Hn; by destruct (Hkeep _ eq_refl Hn)].
      destruct e as [b|st|now| |code];
        try (intros Hn; by destruct (Hkeep _ eq_refl Hn)); try done.
      * unfold on_synced. destruct (docRef h);
          [|intros Hn; by destruct (Hkeep _ eq_refl Hn)].
        destruct (_ && _); intros Hn; by destruct (Hkeep _ eq_refl Hn).
      * unfold on_connection_close. case_decide; [done|].
        intros Hn; by destruct (Hkeep _ eq_refl Hn).
    + unfold bindEditor. cbn.
      destruct (docRef h), (providerRef h);
        intros Hn; by destruct (Hkeep _ eq_refl Hn).
  - intros (w & c & ls & sid & ic & Hs & [[-> Hi]| ->]); cbn [Lifecycle.step].
    + unfold effect, no_session. rewrite bool_decide_eq_false_2 by done.
      by rewrite decide_False.
    + unfold UseYjs_part_002.effect, no_session.
      by rewrite bool_decide_eq_false_2.
Qed.

(** X10 for a hook that was told the session does not exist and then
    that the provider is connected. *)
Lemma error_cleared_only_by_new_session_witness :
  error
    (Lifecycle.step
       (dispatch EmptyString Inputs.mounted (connection_close 4004))
       (Lifecycle.report EmptyString (status_event "connected")))
    <> None.
Proof.
  intros H.
  apply (error_cleared_only_by_new_session
           (dispatch EmptyString Inputs.mounted (connection_close 4004))
           (Lifecycle.report EmptyString (status_event "connected")))
    in H as (w & c & ls & sid & ic & _ & [[H _]|H]); discriminate.
Defined.




End RefFacts.

(** ** The hook under React *)
Section RenderFacts.
Import UseYjs.

(** Whenever the last run of the effect returned no function, the ref
    that guards against a second initialisation is null. *)
Lemma initializedRef_cleared (steps : list Rendered.Step) :
  Rendered.returned_cleanup (Rendered.run steps) = false ->
  initializedRef (Rendered.hook (Rendered.run steps)) = None.
Proof.
  unfold Rendered.run.
  induction steps as [|s steps IH] using rev_ind; [done|].
  rewrite foldl_app. cbn [foldl].
  set (c := foldl Rendered.step Rendered.mounted steps) in *.
  assert (forall w clientID localState deps,
            Rendered.returned_cleanup
              (Rendered.rerun w clientID localState deps c) = false ->
            initializedRef
              (Rendered.hook (Rendered.rerun w clientID localState deps c))
              = None) as Hrerun.
  { intros w clientID localState [sid ic]. unfold Rendered.rerun.
    cbn [Rendered.returned_cleanup Rendered.hook Rendered.sessionId
         Rendered.initialCode].
    set (h := if Rendered.returned_cleanup c then _ else _).
    assert (initializedRef h = None) as Hh.
    { unfold h. destruct (Rendered.returned_cleanup c); [done|by apply IH]. }
    rewrite Hh. unfold effect. destruct sid as [sid|]; [|done].
    unfold no_session. case_bool_decide; [done|].
    rewrite bool_decide_eq_false_2 by done. done. }
  destruct s as [w clientID localState deps|w clientID localState|e|ed];
    cbn [Rendered.step].
  - unfold Rendered.render. case_decide; [exact IH|apply Hrerun].
  - destruct (Rendered.last c); [apply Hrerun|exact IH].
  - cbn [Rendered.returned_cleanup Rendered.hook]. intros H.
    specialize (IH H). unfold dispatch.
    destruct (providerRef (Rendered.hook c)); [|done].
    destruct e as [b|st|now| |code]; try done.
    + unfold on_synced. destruct (docRef (Rendered.hook c)); [|done].
      by destruct (_ && _).
    + unfold on_connection_close. by case_decide.
  - cbn [Rendered.returned_cleanup Rendered.hook]. intros H.
    specialize (IH H). unfold bindEditor. cbn.
    by destruct (docRef (Rendered.hook c)), (providerRef (Rendered.hook c)).
Qed.

(** Every run of the effect for a session runs to its end. *)
Lemma rerun_initialises (steps : list Rendered.Step) (w : Window)
    (clientID : N) (localState : Json.t) (sid initialCode : string) :
  sid <> EmptyString ->
  Rendered.initialised w clientID localState sid
    (Rendered.rerun w clientID localState
       {| Rendered.sessionId := Some sid; Rendered.initialCode := initialCode |}
       (Rendered.run steps)).
Proof.
  intros Hs. unfold Rendered.initialised, Rendered.rerun.
  cbn [Rendered.returned_cleanup Rendered.hook Rendered.sessionId
       Rendered.initialCode Rendered.last].
  set (h := if Rendered.returned_cleanup (Rendered.run steps) then _ else _).
  assert (initializedRef h = None) as Hh.
  { unfold h.
    destruct (Rendered.returned_cleanup (Rendered.run steps)) eqn:Hr;
      [done|by apply initializedRef_cleared]. }
  rewrite Hh. unfold effect, no_session.
  rewrite !bool_decide_eq_false_2 by done.
  rewrite decide_False by (by rewrite Hh).
  repeat split. cbn. by rewrite map_size_singleton.
Qed.

(** X12: under React the guard of the effect on [initializedRef] never
    stops it.  The function the last run returned has cleared the ref
    before the effect runs again, so the remount of strict mode, like
    every render with changed dependencies, destroys what there was and
    creates a new document and a new provider for the session. *)
Theorem effect_guard_never_holds (steps : list Rendered.Step) (w : Window)
    (clientID : N) (localState : Json.t) (deps : Rendered.Deps)
    (sid : string) :
  Rendered.sessionId deps = Some sid ->
  sid <> EmptyString ->
  (Rendered.last (Rendered.run steps) = Some deps ->
   Rendered.initialised w clientID localState sid
     (Rendered.step (Rendered.run steps)
        (Rendered.strict_remount w clientID localState))) /\
  (Rendered.last (Rendered.run steps) <> Some deps ->
   Rendered.initialised w clientID localState sid
     (Rendered.step (Rendered.run steps)
        (Rendered.rendered w clientID localState deps))).
Proof.
  intros Hd Hs. destruct deps as [sid' ic]. cbn in Hd. subst sid'. split.
  - intros Hl. cbn [Rendered.step]. rewrite Hl.
    by apply rerun_initialises.
  - intros Hl. cbn [Rendered.step]. unfold Rendered.render.
    rewrite decide_False by done. by apply rerun_initialises.
Qed.

(** X12 for a first mount in strict mode. *)
Lemma effect_guard_never_holds_witness :
  docRef
    (Rendered.hook
       (Rendered.run
          [Rendered.rendered Inputs.dev_window 7 Inputs.some_user
             {| Rendered.sessionId := Some "abc";
                Rendered.initialCode := EmptyString |};
           Rendered.strict_remount Inputs.dev_window 8 Inputs.some_user]))
    = Some (Y.new_doc 8).
Proof.
  destruct (effect_guard_never_holds
              [Rendered.rendered Inputs.dev_window 7 Inputs.some_user
                 {| Rendered.sessionId := Some "abc";
                    Rendered.initialCode := EmptyString |}]
              Inputs.dev_window 8 Inputs.some_user
              {| Rendered.sessionId := Some "abc";
                 Rendered.initialCode := EmptyString |}
              "abc" eq_refl) as [H _]; [discriminate|].
  apply H. reflexivity.
Defined.

(** X13: [App] hands its [code] to the hook as [initialCode], which is
    a dependency of the effect, and sets [code] on every change the
    editor reports.  So in a session a change of the editor's text to a
    new value makes the next render run the effect again: the document
    and the provider are replaced by new ones, the new document empty.  A
    change that reports the text [code] already holds changes nothing. *)
Theorem typing_recreates_document (steps : list Rendered.Step) (w : Window)
    (clientID : N) (localState : Json.t) (st : App.State) (sid : string)
    (value : option string) :
  App.sessionId st = Some sid ->
  sid <> EmptyString ->
  Rendered.last (Rendered.run steps) = Some (Rendered.deps_of st) ->
  let c :=
    Rendered.step (Rendered.run steps)
      (Rendered.rendered w clientID localState
         (Rendered.deps_of (App.editor_changed value st))) in
  (default EmptyString value = App.code st -> c = Rendered.run steps) /\
  (default EmptyString value <> App.code st ->
   Rendered.initialised w clientID localState sid c /\
   Rendered.last c
     = Some {| Rendered.sessionId := Some sid;
               Rendered.initialCode := default EmptyString value |}).
Proof.
  intros Hsid Hs Hl c. unfold c. cbn [Rendered.step]. unfold Rendered.render.
  rewrite Hl. unfold Rendered.deps_of, App.useYjs_options, App.editor_changed.
  cbn [App.sessionId App.code fst snd]. rewrite Hsid. split.
  - intros ->. by rewrite decide_True.
  - intros Hne. rewrite decide_False by congruence.
    split; [by apply rerun_initialises|reflexivity].
Qed.

(** X13 for a page in the session abc whose editor reports the text x. *)
Lemma typing_recreates_document_witness :
  docRef
    (Rendered.hook
       (Rendered.step
          (Rendered.run
             [Rendered.rendered Inputs.dev_window 7 Inputs.some_user
                (Rendered.deps_of
                   (App.session_loaded
                      (Session.mk "abc" "/?session=abc" "/ws/abc" python None
                         "2024-01-01T00:00:00Z" active 1)
                      (App.initial Inputs.session_link)))])
          (Rendered.rendered Inputs.dev_window 8 Inputs.some_user
             (Rendered.deps_of
                (App.editor_changed (Some "x")
                   (App.session_loaded
                      (Session.mk "abc" "/?session=abc" "/ws/abc" python None
                         "2024-01-01T00:00:00Z" active 1)
                      (App.initial Inputs.session_link)))))))
    = Some (Y.new_doc 8).
Proof.
  destruct (typing_recreates_document
              [Rendered.rendered Inputs.dev_window 7 Inputs.some_user
                 (Rendered.deps_of
                    (App.session_loaded
                       (Session.mk "abc" "/?session=abc" "/ws/abc" python None
                          "2024-01-01T00:00:00Z" active 1)
                       (App.initial Inputs.session_link)))]
              Inputs.dev_window 8 Inputs.some_user
              (App.session_loaded
                 (Session.mk "abc" "/?session=abc" "/ws/abc" python None
                    "2024-01-01T00:00:00Z" active 1)
                 (App.initial Inputs.session_link))
              "abc" (Some "x") eq_refl) as [_ H];
    [discriminate|reflexivity|].
  destruct H as [[Hd _] _]; [by vm_compute|exact Hd].
Defined.

End RenderFacts.

(** ** The loader of Pyodide *)
Section LoaderFacts.

(** Once a load has been started, the loader answers with how that load
    settles and changes nothing. *)
Lemma loadPyodide_started (c0 cdn : Pyodide.Cdn) (v : Pyodide.Vars) :
  Pyodide.pyodideLoading v = Some (Pyodide.settles c0) ->
  Pyodide.pyodideInstance v
    = match c0 with Pyodide.ready i => Some i | _ => None end ->
  Pyodide.loadPyodide cdn v = (v, Pyodide.settles c0).
Proof.
  intros Hl Hi. unfold Pyodide.loadPyodide. rewrite Hi, Hl.
  by destruct c0.
Qed.

Lemma executePython_started
    (runs : Pyodide.Instance -> string -> option Executor.PyRun)
    (elapsed : Z) (c0 cdn : Pyodide.Cdn) (code : string) (v : Pyodide.Vars) :
  Pyodide.pyodideLoading v = Some (Pyodide.settles c0) ->
  Pyodide.pyodideInstance v
    = match c0 with Pyodide.ready i => Some i | _ => None end ->
  Pyodide.executePython cdn runs elapsed code v
    = (v, (Pyodide.executePython c0 runs elapsed code Pyodide.unloaded).2).
Proof.
  intros Hl Hi. unfold Pyodide.executePython.
  rewrite (loadPyodide_started c0 cdn v Hl Hi). reflexivity.
Qed.

Lemma run_all_started
    (runs : Pyodide.Instance -> string -> option Executor.PyRun)
    (c0 : Pyodide.Cdn) (calls : list Pyodide.Run) (v : Pyodide.Vars) :
  Pyodide.pyodideLoading v = Some (Pyodide.settles c0) ->
  Pyodide.pyodideInstance v
    = match c0 with Pyodide.ready i => Some i | _ => None end ->
  (Pyodide.run_all runs calls v).1 = v /\
  (Pyodide.run_all runs calls v).2
    = (fun call : Pyodide.Run =>
         (Pyodide.executePython c0 runs (Pyodide.elapsed_then call)
            (Pyodide.code_run call) Pyodide.unloaded).2)
      <$> calls.
Proof.
  intros Hl Hi. induction calls as [|call calls [IH1 IH2]]; [done|].
  cbn [Pyodide.run_all].
  rewrite (executePython_started runs _ c0 _ _ v Hl Hi).
  cbn [fst snd]. split; [exact IH1|]. cbn [fmap list_fmap]. f_equal.
  exact IH2.
Qed.

(** X14: the first attempt to load Pyodide decides every run.  However
    many runs follow and whatever the CDN would do later, one script
    element is added to the page, the loader keeps answering with how the
    first attempt settled, and every run fares as a first run would have
    fared against the first attempt.  After a script that failed to load,
    every run reports the failure to load Pyodide: the load is never
    tried again. *)
Theorem first_load_decides
    (runs : Pyodide.Instance -> string -> option Executor.PyRun)
    (first : Pyodide.Run) (calls : list Pyodide.Run) :
  let c0 := Pyodide.cdn_then first in
  let r := Pyodide.run_all runs (first :: calls) Pyodide.unloaded in
  Pyodide.scripts r.1 = 1%nat /\
  r.2 = (fun call : Pyodide.Run =>
           (Pyodide.executePython c0 runs (Pyodide.elapsed_then call)
              (Pyodide.code_run call) Pyodide.unloaded).2)
        <$> first :: calls /\
  (forall cdn, Pyodide.loadPyodide cdn r.1 = (r.1, Pyodide.settles c0)) /\
  (c0 = Pyodide.script_error ->
   forall res, res ∈ r.2 ->
     exists elapsed,
       res = Some (Fulfilled
                     (ExecuteResult.mk false EmptyString None (Some elapsed)
                        (Some "Failed to load Pyodide")
                        (Some "runtime_error")))).
Proof.
  intros c0 r. unfold r. cbn [Pyodide.run_all].
  set (v1 := (Pyodide.executePython (Pyodide.cdn_then first) runs
                (Pyodide.elapsed_then first) (Pyodide.code_run first)
                Pyodide.unloaded).1).
  assert (Pyodide.pyodideLoading v1 = Some (Pyodide.settles c0)) as Hl by done.
  assert (Pyodide.pyodideInstance v1
          = match c0 with Pyodide.ready i => Some i | _ => None end) as Hi
    by done.
  destruct (run_all_started runs c0 calls v1 Hl Hi) as [H1 H2].
  cbn [fst snd]. rewrite H1, H2. split; [done|]. split; [done|].
  split; [intros cdn; by apply loadPyodide_started|].
  fold c0. intros -> res Hin.
  apply elem_of_cons in Hin as [->|Hin]; [by eexists|].
  apply list_elem_of_fmap in Hin as (call & -> & _). by eexists.
Qed.

End LoaderFacts.

(** ** What a request resolves with *)
Section ResolveFacts.
Import Api.

(** X15: [request] resolves exactly when [fetch] answers with a status
    from 200 to 299: with [null] for the status 204, whatever the body,
    and otherwise with the body parsed as JSON.  A failed fetch, any
    other status, and, unless the status is 204, a body that is not JSON
    never resolve. *)
Theorem request_resolves (e : Env) (endpoint : string) (options : RequestInit)
    (j : Json.t) :
  settled (request e endpoint options) = Fulfilled j <->
  exists r,
    fetch e (API_BASE e +:+ endpoint) (init_of options) = responded r /\
    200 <= status r <= 299 /\
    ((status r = 204 /\ j = Json.JNull) \/
     (status r <> 204 /\ body_of r = parsed j)).
Proof.
  unfold request. cbn [settled]. split.
  - destruct (fetch e _ _) as [reason|r]; [done|].
    unfold ok. case_bool_decide as Hok; cbn [negb].
    + case_decide as H204.
      * intros [= <-]. exists r. split; [done|]. split; [done|]. by left.
      * destruct (body_of r) as [|j'] eqn:Hb; [done|].
        intros [= <-]. exists r. split; [done|]. split; [done|]. by right.
    + destruct (body_of r) as [|j']; cbn.
      * done.
      * by destruct (Json.get j' "detail").
  - intros (r & -> & Hok & Hcase). unfold ok.
    rewrite bool_decide_eq_true_2 by done. cbn [negb].
    destruct Hcase as [[H204 ->]|[H204 Hb]].
    + by rewrite decide_True.
    + rewrite decide_False by done. by rewrite Hb.
Qed.

End ResolveFacts.

(** ** The first client of a session *)
Section SeedFacts.
Import UseYjs.

Lemma append_empty_r (s : string) : s +:+ EmptyString = s.
Proof.
  induction s as [|c s IH]; [done|].
  change (String c (s +:+ EmptyString) = String c s). by rewrite IH.
Qed.

(** A document whose only run is one insertion reads as that text. *)
Lemma toString_insert0_new (clientID : N) (text : string) :
  Y.toString (Y.insert0 (Y.new_doc clientID) text) = text.
Proof.
  unfold Y.insert0. case_decide as Ht; [by subst|].
  unfold Y.toString. cbn [Y.items Y.new_doc Y.clientID].
  rewrite insert_empty, map_to_list_singleton. cbn.
  apply append_empty_r.
Qed.

(** After the handshake the client is one of the hub's connections. *)
Lemma connect_registered (now : Z) (h : Relay.Hub) (doc : Y.Doc) :
  is_Some (Relay.connections (Provider.connect now h doc).1 !! Y.clientID doc).
Proof.
  unfold Provider.connect, Relay.accept.
  set (c0 := {| Relay.session_id := Relay.session h;
                Relay.client_id := Y.clientID doc;
                Relay.awareness_state := None;
                Relay.state := Relay.syncing |}).
  set (h1 := Relay.with_connection h c0).
  assert (Relay.connections h1 !! Y.clientID doc = Some c0) as H1
    by apply lookup_insert_eq.
  cbn zeta iota beta.
  rewrite (on_frame_sync_step_1 now h1 _ c0 _ H1).
  unfold Relay.on_frame. cbn [Relay.connections]. rewrite H1.
  cbn [fst Relay.connections]. rewrite lookup_insert_eq. by eexists.
Qed.

(** X16: with hooks/useYjs.ts, the client that joins a session whose
    document is empty and has initial code inserts that code once the
    provider has synced: its editor reads the code, the relay's document
    reads the code, and every client that joins afterwards reads exactly
    that code, whatever initial code of its own it brings. *)
Theorem first_joiner_seeds_session (now : Z) (w : Window) (clientID : N)
    (localState : Json.t) (sid initialCode : string) (hub : Relay.Hub) :
  sid <> EmptyString ->
  initialCode <> EmptyString ->
  Y.items (Relay.document hub) = ∅ ->
  let joined := Join.join now w clientID localState sid initialCode hub in
  Join.text_of joined.2 = initialCode /\
  Y.toString (Relay.document joined.1) = initialCode /\
  forall now' w' clientID' localState' initialCode',
    Join.text_of
      (Join.join now' w' clientID' localState' sid initialCode' joined.1).2
      = initialCode.
Proof.
  intros Hsid Hic Hempty joined.
  set (d0 := Y.insert0 (Y.new_doc clientID) initialCode).
  assert (Y.items d0
          = {[ (clientID, 0%N) := {| Y.position := 0; Y.content := initialCode |} ]})
    as Hd0.
  { unfold d0, Y.insert0. rewrite decide_False by done. reflexivity. }
  assert (docRef joined.2 = Some d0 /\
          Y.items (Relay.document joined.1) = Y.items d0) as [Hdoc Hrelay].
  { unfold joined, Join.join, effect, no_session.
    rewrite bool_decide_eq_false_2 by done.
    rewrite decide_False by done.
    cbn [docRef with_refs set_states foldl set_state on_awareness_change].
    destruct (connect_documents now hub (Y.new_doc clientID)) as [Hc Hh].
    pose proof (connect_registered now hub (Y.new_doc clientID)) as [c Hreg].
    destruct (Provider.connect now hub (Y.new_doc clientID)) as [hub1 doc1].
    cbn [fst snd] in *.
    assert (doc1 = Y.new_doc clientID) as ->.
    { rewrite Hc. unfold Y.applyUpdate, Y.encodeStateAsUpdate.
      rewrite Hempty, map_filter_empty. cbn [Y.items Y.new_doc Y.clientID].
      by rewrite (left_id_L ∅ (∪)). }
    assert (Y.items (Relay.document hub1) = ∅) as Hh1.
    { rewrite Hh. cbn [Y.applyUpdate Y.items]. unfold Y.encodeStateAsUpdate.
      cbn [Y.new_doc Y.items]. rewrite map_filter_empty, Hempty.
      apply (left_id_L ∅ (∪)). }
    unfold dispatch.
    cbn [providerRef with_refs set_states foldl set_state on_awareness_change].
    unfold on_synced.
    cbn [docRef initialCodeInserted with_refs set_states foldl set_state
         on_awareness_change].
    rewrite (bool_decide_eq_true_2 (Y.length (Y.new_doc clientID) = 0%nat))
      by reflexivity.
    rewrite (bool_decide_eq_false_2 (initialCode = EmptyString)) by done.
    cbn [negb andb docRef initialCodeInserted with_refs fst snd].
    fold d0. split; [done|].
    unfold Provider.publish.
    destruct (on_frame_delta_document now hub1 (Y.clientID d0) c
                (Y.encodeStateAsUpdate d0 (Relay.state_vector hub1)))
      as [_ ->].
    { unfold d0, Y.insert0. rewrite decide_False by done. exact Hreg. }
    cbn [Y.applyUpdate Y.items]. rewrite Hh1, (left_id_L ∅ (∪)).
    apply encodeStateAsUpdate_unseen. intros c' k it _.
    unfold Relay.state_vector, Y.encodeStateVector.
    rewrite Hh1, map_fold_empty. apply lookup_empty. }
  assert (Y.toString (Relay.document joined.1) = initialCode) as Htext.
  { rewrite (toString_items _ d0 Hrelay). apply toString_insert0_new. }
  split.
  { unfold Join.text_of. rewrite Hdoc. apply toString_insert0_new. }
  split; [exact Htext|].
  intros now' w' clientID' localState' initialCode'.
  destruct (join_keeps_session_text now' w' clientID' localState' sid
              initialCode' joined.1 Hsid) as [-> _]; [|exact Htext].
  rewrite <- toString_length, Htext. by destruct initialCode.
Qed.

(** X16 for a session created without initial code. *)
Lemma first_joiner_seeds_session_witness :
  let joined :=
    Join.join 9 Inputs.dev_window 7 Inputs.some_user "abc" "print(1)"
      (Inputs.fresh_hub EmptyString) in
  Join.text_of joined.2 = "print(1)" /\
  Y.toString (Relay.document joined.1) = "print(1)".
Proof.
  destruct (first_joiner_seeds_session 9 Inputs.dev_window 7 Inputs.some_user
              "abc" "print(1)" (Inputs.fresh_hub EmptyString))
    as (H1 & H2 & _); [discriminate|discriminate|reflexivity|].
  split; [exact H1|exact H2].
Defined.

End SeedFacts.

(** ** Python code that raises *)
Section RaiseFacts.
Import Executor.

(** X17: when Python code raises, the result carries no output,
    whatever the code had printed; the error is the message of the
    exception, and stderr is what was written to it or, if nothing was,
    the same message.  The panel then shows stderr and, under it, the
    error with its type: an exception that wrote nothing to stderr is
    shown twice. *)
Theorem python_error_output (b : Browser) (code message stderr_value : string) :
  run_python b code = Some (py_raised message stderr_value) ->
  exists res,
    executeCode b code python = Some (Fulfilled res) /\
    ExecuteResult.success res = false /\
    ExecuteResult.output res = EmptyString /\
    ExecuteResult.error res = Some message /\
    ExecuteResult.stderr res
      = Some (if decide (stderr_value = EmptyString) then message
              else stderr_value) /\
    (message <> EmptyString ->
     OutputPanel.body (Some res) false
       = [OutputPanel.stderr_text
            (if decide (stderr_value = EmptyString) then message
             else stderr_value);
          OutputPanel.error_text (Some "runtime_error") message]).
Proof.
  intros H. cbn [executeCode]. unfold executePython. rewrite H.
  eexists. split; [reflexivity|]. do 4 (split; [reflexivity|]).
  intros Hm. unfold OutputPanel.body, OutputPanel.shown.
  cbn [ExecuteResult.output ExecuteResult.stderr ExecuteResult.error
       ExecuteResult.error_type].
  rewrite (bool_decide_eq_false_2 (message = EmptyString)) by done.
  rewrite (bool_decide_eq_false_2 ("runtime_error" = EmptyString)) by done.
  case_decide as Hs.
  - rewrite (bool_decide_eq_false_2 (message = EmptyString)) by done.
    reflexivity.
  - rewrite (bool_decide_eq_false_2 (stderr_value = EmptyString)) by done.
    reflexivity.
Qed.

(** X17 for an exception that wrote nothing to stderr. *)
Lemma python_error_output_witness :
  exists res,
    executeCode (Inputs.raising "NameError") "x" python = Some (Fulfilled res) /\
    OutputPanel.body (Some res) false
      = [OutputPanel.stderr_text "NameError";
         OutputPanel.error_text (Some "runtime_error") "NameError"].
Proof.
  destruct (python_error_output (Inputs.raising "NameError") "x" "NameError"
              EmptyString eq_refl) as (res & He & _ & _ & _ & _ & Hb).
  exists res. split; [exact He|]. apply Hb. discriminate.
Defined.

End RaiseFacts.
